(** * Alarm summary of typhos (typhos/alarm.py)

    A shallow embedding of [TyphosAlarmBase]: the four per-address and
    per-device tables, the stored summary, the PyDM channel objects the
    widget creates, and the values sent on the [alarm_changed] signal.
    Methods are functions in a state-and-exception monad over the widget;
    a Python exception leaves the mutations made before it in place. *)

From stdpp Require Import gmap strings list fin_maps.

Local Open Scope Z_scope.

(** ** Enumerations *)

(** [class KindLevel]: HINTED = 0, NORMAL = 1, CONFIG = 2, OMITTED = 3. *)
Inductive KindLevel := HINTED | NORMAL | CONFIG | OMITTED.

Definition KindLevel_value (k : KindLevel) : Z :=
  match k with HINTED => 0 | NORMAL => 1 | CONFIG => 2 | OMITTED => 3 end.

Definition KindLevel_lt (k1 k2 : KindLevel) : Prop :=
  KindLevel_value k1 < KindLevel_value k2.

(** [class AlarmLevel]: plain integer constants; the transport delivers
    severities as integers and [alarm_summary] stores one. *)
Module AlarmLevel.
Definition NO_ALARM : Z := 0.
Definition MINOR : Z := 1.
Definition MAJOR : Z := 2.
Definition INVALID : Z := 3.
Definition DISCONNECTED : Z := 4.
End AlarmLevel.

(** [ophyd.device.Kind] is an integer flag type of the ophyd library:
    omitted = 0b000, normal = 0b001, config = 0b010, hinted = 0b101.
    A signal's kind is any such integer (flags can be combined). *)
Module Kind.
Definition omitted : Z := 0.
Definition normal : Z := 1.
Definition config : Z := 2.
Definition hinted : Z := 5.
End Kind.

(** ** Devices and signals *)

(** One entry of the walk over a device's signal tree: the signal's kind
    and the channel address [channel_from_signal] gives it. *)
Record Signal := { kind : Z; address : string }.

Record Device := { name : string; walk_signals : list Signal }.

(** [KIND_FILTERS]: the predicate on walk entries selected by a level. *)
Definition KIND_FILTERS (level : KindLevel) (walk : Signal) : bool :=
  match level with
  | HINTED => bool_decide (kind walk = Kind.hinted)
  | NORMAL => bool_decide (kind walk = Kind.hinted) || bool_decide (kind walk = Kind.normal)
  | CONFIG => negb (bool_decide (kind walk = Kind.omitted))
  | OMITTED => true
  end.

(** Modelled from the spec: [get_all_signals_from_device] of typhos/utils.py
    is not among the sources; the resolver enumerates the signals of the
    device tree that the filter accepts, in walk order. *)
Definition get_all_signals_from_device (device : Device)
    (filter_by : Signal -> bool) : list Signal :=
  List.filter filter_by (walk_signals device).

(** Modelled from the spec: [channel_from_signal] of typhos/utils.py is not
    among the sources; it gives the transport address of a leaf signal. *)
Definition channel_from_signal (sig : Signal) : string := address sig.

(** ** The widget state *)

(** A reference to a [PyDMChannel] object: the object's identity (the
    number of channel objects created before it) and the address it was
    built with, which never changes. *)
Record PyDMChannel := { ch_id : nat; ch_address : string }.

Record TyphosAlarmBase := {
  _kind_level : KindLevel;
  addr_connected : gmap string bool;
  addr_severity : gmap string Z;
  addr_channels : gmap string PyDMChannel;
  device_channels : gmap string (list PyDMChannel);
  alarm_summary : Z;
  (* self.devices, kept by the base class TyphosObject *)
  devices : list Device;
  (* the number of PyDMChannel objects created so far *)
  created : nat;
  (* the subscriptions open at the transport: identity of each channel
     object that is connected, with its address *)
  subscriptions : gmap nat string;
  (* the values sent on the alarm_changed signal, oldest first *)
  alarm_changed : list Z
}.

(** [__init__] *)
Definition __init__ : TyphosAlarmBase :=
  {| _kind_level := HINTED;
     addr_connected := ∅;
     addr_severity := ∅;
     addr_channels := ∅;
     device_channels := ∅;
     alarm_summary := AlarmLevel.DISCONNECTED;
     devices := [];
     created := 0%nat;
     subscriptions := ∅;
     alarm_changed := [] |}.

(** Assignments to one attribute. *)
Definition set_kind_level (k : KindLevel) (w : TyphosAlarmBase) :=
  {| _kind_level := k; addr_connected := addr_connected w;
     addr_severity := addr_severity w; addr_channels := addr_channels w;
     device_channels := device_channels w; alarm_summary := alarm_summary w;
     devices := devices w; created := created w;
     subscriptions := subscriptions w; alarm_changed := alarm_changed w |}.

Definition set_addr_connected (m : gmap string bool) (w : TyphosAlarmBase) :=
  {| _kind_level := _kind_level w; addr_connected := m;
     addr_severity := addr_severity w; addr_channels := addr_channels w;
     device_channels := device_channels w; alarm_summary := alarm_summary w;
     devices := devices w; created := created w;
     subscriptions := subscriptions w; alarm_changed := alarm_changed w |}.

Definition set_addr_severity (m : gmap string Z) (w : TyphosAlarmBase) :=
  {| _kind_level := _kind_level w; addr_connected := addr_connected w;
     addr_severity := m; addr_channels := addr_channels w;
     device_channels := device_channels w; alarm_summary := alarm_summary w;
     devices := devices w; created := created w;
     subscriptions := subscriptions w; alarm_changed := alarm_changed w |}.

Definition set_addr_channels (m : gmap string PyDMChannel) (w : TyphosAlarmBase) :=
  {| _kind_level := _kind_level w; addr_connected := addr_connected w;
     addr_severity := addr_severity w; addr_channels := m;
     device_channels := device_channels w; alarm_summary := alarm_summary w;
     devices := devices w; created := created w;
     subscriptions := subscriptions w; alarm_changed := alarm_changed w |}.

Definition set_device_channels (m : gmap string (list PyDMChannel))
    (w : TyphosAlarmBase) :=
  {| _kind_level := _kind_level w; addr_connected := addr_connected w;
     addr_severity := addr_severity w; addr_channels := addr_channels w;
     device_channels := m; alarm_summary := alarm_summary w;
     devices := devices w; created := created w;
     subscriptions := subscriptions w; alarm_changed := alarm_changed w |}.

Definition set_alarm_summary (a : Z) (w : TyphosAlarmBase) :=
  {| _kind_level := _kind_level w; addr_connected := addr_connected w;
     addr_severity := addr_severity w; addr_channels := addr_channels w;
     device_channels := device_channels w; alarm_summary := a;
     devices := devices w; created := created w;
     subscriptions := subscriptions w; alarm_changed := alarm_changed w |}.

Definition set_devices (ds : list Device) (w : TyphosAlarmBase) :=
  {| _kind_level := _kind_level w; addr_connected := addr_connected w;
     addr_severity := addr_severity w; addr_channels := addr_channels w;
     device_channels := device_channels w; alarm_summary := alarm_summary w;
     devices := ds; created := created w;
     subscriptions := subscriptions w; alarm_changed := alarm_changed w |}.

Definition set_created (n : nat) (w : TyphosAlarmBase) :=
  {| _kind_level := _kind_level w; addr_connected := addr_connected w;
     addr_severity := addr_severity w; addr_channels := addr_channels w;
     device_channels := device_channels w; alarm_summary := alarm_summary w;
     devices := devices w; created := n;
     subscriptions := subscriptions w; alarm_changed := alarm_changed w |}.

Definition set_subscriptions (m : gmap nat string) (w : TyphosAlarmBase) :=
  {| _kind_level := _kind_level w; addr_connected := addr_connected w;
     addr_severity := addr_severity w; addr_channels := addr_channels w;
     device_channels := device_channels w; alarm_summary := alarm_summary w;
     devices := devices w; created := created w;
     subscriptions := m; alarm_changed := alarm_changed w |}.

Definition set_alarm_changed (l : list Z) (w : TyphosAlarmBase) :=
  {| _kind_level := _kind_level w; addr_connected := addr_connected w;
     addr_severity := addr_severity w; addr_channels := addr_channels w;
     device_channels := device_channels w; alarm_summary := alarm_summary w;
     devices := devices w; created := created w;
     subscriptions := subscriptions w; alarm_changed := l |}.

(** ** Exceptions and the method monad *)

Inductive exn :=
  | ValueError          (* max() of an empty sequence *)
  | AttributeError      (* lookup of a method the object does not have *)
  | SubscriptionOpenError.  (* the transport refuses to open an address *)

Inductive result (A : Type) :=
  | Ok (a : A)
  | Raise (e : exn).
Arguments Ok {A} a.
Arguments Raise {A} e.

Definition M (A : Type) : Type := TyphosAlarmBase -> result A * TyphosAlarmBase.

Definition ret {A} (a : A) : M A := fun w => (Ok a, w).
Definition raise {A} (e : exn) : M A := fun w => (Raise e, w).
Definition bind {A B} (m : M A) (f : A -> M B) : M B :=
  fun w => match m w with
           | (Ok a, w') => f a w'
           | (Raise e, w') => (Raise e, w')
           end.
Definition modify (f : TyphosAlarmBase -> TyphosAlarmBase) : M unit :=
  fun w => (Ok tt, f w).
Definition get : M TyphosAlarmBase := fun w => (Ok w, w).

Notation "x <- m ;; k" := (bind m (fun x => k))
  (at level 100, m at next level, right associativity).
Notation "m ;;; k" := (bind m (fun _ => k))
  (at level 100, right associativity).

(** [for x in xs: body x], stopping at the first exception. *)
Fixpoint for_each {A} (xs : list A) (body : A -> M unit) : M unit :=
  match xs with
  | [] => ret tt
  | x :: rest => body x ;;; for_each rest body
  end.

Definition outcome {A} (m : M A) (w : TyphosAlarmBase) : result A := fst (m w).
Definition state_after {A} (m : M A) (w : TyphosAlarmBase) : TyphosAlarmBase :=
  snd (m w).

(** ** Python built-ins used by the methods *)

(** [d.values()] *)
Definition values `{Countable K} {V} (d : gmap K V) : list V :=
  (map_to_list d).*2.

(** [all(xs)] on booleans. *)
Definition all (xs : list bool) : bool := forallb id xs.

(** [max(xs)] on integers: [ValueError] on an empty sequence. *)
Definition py_max (xs : list Z) : result Z :=
  match xs with
  | [] => Raise ValueError
  | x :: rest => Ok (foldl Z.max x rest)
  end.

(** ** Methods of [TyphosAlarmBase] *)

(** The list comprehension building one [PyDMChannel] per address: the
    [n]-th object created gets identity [n]. *)
Fixpoint new_channels (n : nat) (addrs : list string) : list PyDMChannel :=
  match addrs with
  | [] => []
  | addr :: rest => {| ch_id := n; ch_address := addr |} :: new_channels (S n) rest
  end.

(** [ch.disconnect()] *)
Definition ch_disconnect (ch : PyDMChannel) : M unit :=
  modify (fun w => set_subscriptions (delete (ch_id ch) (subscriptions w)) w).

(** [self.alarm_changed.emit(v)]: the value is recorded; the slot bound to
    the signal, [set_alarm_color], only restyles the widget. *)
Definition emit (v : Z) : M unit :=
  modify (fun w => set_alarm_changed (alarm_changed w ++ [v]) w).

(** [channels]: every channel of every device. *)
Definition channels (w : TyphosAlarmBase) : list PyDMChannel :=
  concat (values (device_channels w)).

(** [clear_all_alarm_configs] *)
Definition clear_all_alarm_configs : M unit :=
  w <- get ;;
  for_each (values (addr_channels w)) ch_disconnect ;;;
  modify (set_addr_channels ∅) ;;;
  modify (set_addr_connected ∅) ;;;
  modify (set_addr_severity ∅) ;;;
  modify (set_device_channels ∅).

(** [update_current_alarm] *)
Definition compute_alarm (w : TyphosAlarmBase) : result Z :=
  if negb (all (values (addr_connected w)))
  then Ok AlarmLevel.DISCONNECTED
  else py_max (values (addr_severity w)).

Definition update_current_alarm : M unit :=
  w <- get ;;
  match compute_alarm w with
  | Raise e => raise e
  | Ok new_alarm =>
      (if bool_decide (new_alarm ≠ alarm_summary w)
       then emit new_alarm else ret tt) ;;;
      modify (set_alarm_summary new_alarm)
  end.

(** [update_connection] and [update_severity], the slots of a channel. *)
Definition update_connection (connected : bool) (addr : string) : M unit :=
  modify (fun w => set_addr_connected (<[addr := connected]> (addr_connected w)) w) ;;;
  update_current_alarm.

Definition update_severity (severity : Z) (addr : string) : M unit :=
  modify (fun w => set_addr_severity (<[addr := severity]> (addr_severity w)) w) ;;;
  update_current_alarm.

(** [self.setup_alarms(dev)]: alarm.py gives the widget no attribute of that
    name. The methods of the class are channels, add_device,
    clear_all_alarm_configs, setup_alarm_config, update_alarm_config,
    update_connection, update_severity, update_current_alarm and
    set_alarm_color, and [create_alarm_widget_cls] adds shape_cls,
    alarm_changed and kindLevel only; so the lookup raises. *)
Definition setup_alarms (dev : Device) : M unit := raise AttributeError.

(** [update_alarm_config] *)
Definition update_alarm_config : M unit :=
  clear_all_alarm_configs ;;;
  w <- get ;;
  for_each (devices w) setup_alarms.

(** The [kindLevel] property: getter and setter. *)
Definition kindLevel (w : TyphosAlarmBase) : KindLevel := _kind_level w.

Definition kindLevel_setter (kind_level : KindLevel) : M unit :=
  modify (set_kind_level kind_level) ;;;
  update_alarm_config.

(** Modelled from the spec: [TyphosObject.add_device] of typhos/utils.py is
    not among the sources; the base class keeps the attached devices in
    [self.devices], which [update_alarm_config] iterates. *)
Definition super_add_device (device : Device) : M unit :=
  modify (fun w => set_devices (devices w ++ [device]) w).

Section Transport.
(** A transport whose [connect] raises for the addresses it refuses. PyDM's
    own [connect] returns also when the open fails (the channel then never
    reports connected): that transport has [rejects] false everywhere. *)
Variable rejects : string -> bool.

(** [ch.connect()] *)
Definition ch_connect (ch : PyDMChannel) : M unit :=
  if rejects (ch_address ch) then raise SubscriptionOpenError
  else modify (fun w =>
         set_subscriptions (<[ch_id ch := ch_address ch]> (subscriptions w)) w).

(** The body of the loop of [setup_alarm_config]. *)
Definition track_channel (ch : PyDMChannel) : M unit :=
  modify (fun w => set_addr_channels (<[ch_address ch := ch]> (addr_channels w)) w) ;;;
  modify (fun w => set_addr_connected (<[ch_address ch := false]> (addr_connected w)) w) ;;;
  modify (fun w =>
    set_addr_severity (<[ch_address ch := AlarmLevel.INVALID]> (addr_severity w)) w) ;;;
  ch_connect ch.

(** [setup_alarm_config] *)
Definition setup_alarm_config (device : Device) : M unit :=
  w <- get ;;
  let sigs := get_all_signals_from_device device (KIND_FILTERS (_kind_level w)) in
  let channel_addrs := map channel_from_signal sigs in
  let channels := new_channels (created w) channel_addrs in
  modify (set_created (created w + length channel_addrs)%nat) ;;;
  modify (fun w => set_device_channels
                     (<[name device := channels]> (device_channels w)) w) ;;;
  for_each channels track_channel.

(** [add_device] *)
Definition add_device (device : Device) : M unit :=
  super_add_device device ;;;
  setup_alarm_config device.

(** The channels the loop of [setup_alarm_config] enters into the tables:
    all of them up to and including the first one the transport refuses. *)
Fixpoint processed (chs : list PyDMChannel) : list PyDMChannel :=
  match chs with
  | [] => []
  | ch :: rest => ch :: (if rejects (ch_address ch) then [] else processed rest)
  end.

(** The channels whose [connect] succeeded: those before the first refusal. *)
Fixpoint accepted (chs : list PyDMChannel) : list PyDMChannel :=
  match chs with
  | [] => []
  | ch :: rest => if rejects (ch_address ch) then [] else ch :: accepted rest
  end.

Definition all_accepted (chs : list PyDMChannel) : bool :=
  forallb (fun ch => negb (rejects (ch_address ch))) chs.
End Transport.

(** The tracked channel set: the addresses with a connection entry. *)
Definition tracked (w : TyphosAlarmBase) : gset string := dom (addr_connected w).

(** The values sent on [alarm_changed] while [m] runs from [w]. *)
Definition notifications {A} (m : M A) (w : TyphosAlarmBase) : list Z :=
  drop (length (alarm_changed w)) (alarm_changed (state_after m w)).

(** Closing a list of channels, as the loop of [clear_all_alarm_configs]
    leaves the open subscriptions. *)
Definition close_all (chs : list PyDMChannel) (s : gmap nat string) : gmap nat string :=
  foldl (fun s ch => delete (ch_id ch) s) s chs.

(** The addresses [setup_alarm_config] resolves for a device at the
    widget's current tier. *)
Definition resolved_addresses (device : Device) (w : TyphosAlarmBase) : list string :=
  map channel_from_signal
      (get_all_signals_from_device device (KIND_FILTERS (_kind_level w))).

(** Every channel object of the channel table has been created. *)
Definition channels_exist (w : TyphosAlarmBase) : Prop :=
  map_Forall (fun _ ch => (ch_id ch < created w)%nat) (addr_channels w).

(** The number of subscriptions open on an address. *)
Definition open_count (a : string) (w : TyphosAlarmBase) : nat :=
  length (List.filter (fun kv : nat * string => bool_decide (kv.2 = a))
                      (map_to_list (subscriptions w))).

(** ** Sample devices, transports and widget states *)

Module Sample.
(** A device with three hinted signals, and one sharing address A. *)
Definition dev_three : Device :=
  {| name := "motor";
     walk_signals := [ {| kind := Kind.hinted; address := "A" |};
                       {| kind := Kind.hinted; address := "B" |};
                       {| kind := Kind.hinted; address := "C" |} ] |}.

Definition dev_shared : Device :=
  {| name := "gauge";
     walk_signals := [ {| kind := Kind.hinted; address := "A" |} ] |}.

(** One signal of each kind, and a device with a config signal only. *)
Definition dev_mixed : Device :=
  {| name := "stage";
     walk_signals := [ {| kind := Kind.hinted; address := "H" |};
                       {| kind := Kind.normal; address := "N" |};
                       {| kind := Kind.config; address := "K" |};
                       {| kind := Kind.omitted; address := "O" |} ] |}.

Definition dev_config_only : Device :=
  {| name := "valve";
     walk_signals := [ {| kind := Kind.config; address := "K" |} ] |}.

Definition accept_all (a : string) : bool := false.

(** [dev_three] attached to a new widget. *)
Definition w_three : TyphosAlarmBase :=
  state_after (add_device accept_all dev_three) __init__.

(** Then the three channels report connected, with severities NoAlarm,
    Major and Minor. *)
Definition w_connected : TyphosAlarmBase :=
  state_after (update_connection true "A" ;;;
               update_connection true "B" ;;;
               update_connection true "C" ;;;
               update_severity AlarmLevel.NO_ALARM "A" ;;;
               update_severity AlarmLevel.MAJOR "B" ;;;
               update_severity AlarmLevel.MINOR "C") w_three.

(** Then B is reported disconnected: the dictionary store of
    [update_connection], before its recompute. *)
Definition w_B_lost : TyphosAlarmBase :=
  set_addr_connected (<["B" := false]> (addr_connected w_connected)) w_connected.

(** [dev_shared], which shares address A, attached after [dev_three]. *)
Definition w_shared : TyphosAlarmBase :=
  state_after (add_device accept_all dev_shared) w_connected.

(** A device whose only signal the hinted tier leaves out. *)
Definition w_config_only : TyphosAlarmBase :=
  state_after (add_device accept_all dev_config_only) __init__.
End Sample.

(** ** The indicator: style sheets and widget classes *)

(** [indicator_stylesheet]: the part of the style sheet before the colour. *)
Definition stylesheet_base (shape_cls : string) : string :=
  shape_cls +:+ " " +:+
  "{border: none; " +:+
  " background: transparent;" +:+
  " qproperty-penColor: black;" +:+
  " qproperty-penWidth: 2;" +:+
  " qproperty-penStyle: SolidLine;" +:+
  " qproperty-brush: rgba".

(** [indicator_stylesheet]: [alarm is AlarmLevel.X] on the small integers
    of [AlarmLevel] is integer equality. *)
Definition indicator_stylesheet (shape_cls : string) (alarm : Z) : result string :=
  let base := stylesheet_base shape_cls in
  if bool_decide (alarm = AlarmLevel.DISCONNECTED) then Ok (base +:+ "(255,255,255,255);}")
  else if bool_decide (alarm = AlarmLevel.NO_ALARM) then Ok (base +:+ "(0,255,0,255);}")
  else if bool_decide (alarm = AlarmLevel.MINOR) then Ok (base +:+ "(255,255,0,255);}")
  else if bool_decide (alarm = AlarmLevel.MAJOR) then Ok (base +:+ "(255,0,0,255);}")
  else if bool_decide (alarm = AlarmLevel.INVALID) then Ok (base +:+ "(255,0,255,255);}")
  else Raise ValueError.

(** [set_alarm_color]: the style sheet handed to [setStyleSheet]. *)
Definition set_alarm_color (shape_cls : string) (alarm_level : Z) : result string :=
  indicator_stylesheet shape_cls alarm_level.

(** Exceptions of the code outside the widget methods. *)
Inductive py_exn :=
  | IndexError            (* list index out of range *)
  | UnboundLocalError     (* a local variable read before any assignment *)
  | NotImplementedError
  | OtherError (what : string).  (* raised inside a library call *)

Inductive py_result (A : Type) :=
  | Return (a : A)
  | Throw (e : py_exn).
Arguments Return {A} a.
Arguments Throw {A} e.

(** [s.split(sep)] for a non-empty [sep]: the pieces between the leftmost
    non-overlapping occurrences of [sep]. [skip] counts the characters of a
    matched separator still to pass, [cur] is the piece being read. *)
Fixpoint split_from (sep : string) (skip : nat) (cur : string) (s : string)
    : list string :=
  match s with
  | EmptyString => [cur]
  | String c rest =>
      match skip with
      | S k => split_from sep k cur rest
      | O =>
          if String.prefix sep s
          then cur :: split_from sep (String.length sep - 1) "" rest
          else split_from sep 0 (cur +:+ String c "") rest
      end
  end.

Definition split (s sep : string) : list string := split_from sep 0 "" s.

(** [sep] occurs somewhere in [s]. *)
Fixpoint occurs (sep s : string) : bool :=
  String.prefix sep s ||
  match s with
  | EmptyString => false
  | String _ rest => occurs sep rest
  end.

(** [xs[1]] *)
Definition index1 {A} (xs : list A) : py_result A :=
  match xs !! 1%nat with
  | Some x => Return x
  | None => Throw IndexError
  end.

(** The class [create_alarm_widget_cls] builds: its name and the
    [shape_cls] entry of its dictionary (the other two entries,
    [alarm_changed] and [kindLevel], are the same for every class). *)
Record AlarmWidgetClass := { __name__ : string; shape_cls : string }.

(** [create_alarm_widget_cls], given the drawing widget class by its name. *)
Definition create_alarm_widget_cls (drawing_widget_cls_name : string)
    : py_result AlarmWidgetClass :=
  match index1 (split drawing_widget_cls_name "PyDMDrawing") with
  | Throw e => Throw e
  | Return shape =>
      let alarm_widget_name := "TyphosAlarm" +:+ shape in
      Return {| __name__ := alarm_widget_name;
                shape_cls := drawing_widget_cls_name |}
  end.

(** [SHAPES], by class name. *)
Definition SHAPES : list string :=
  [ "PyDMDrawingCircle"; "PyDMDrawingRectangle"; "PyDMDrawingTriangle";
    "PyDMDrawingEllipse"; "PyDMDrawingPolygon" ].

(** [init_shape_classes] over a list of shapes: the module globals it
    leaves, or the exception that ends the loop. *)
Fixpoint init_shape_classes_from (shapes : list string)
    (globals : gmap string AlarmWidgetClass)
    : py_result (gmap string AlarmWidgetClass) :=
  match shapes with
  | [] => Return globals
  | shape :: rest =>
      match create_alarm_widget_cls shape with
      | Throw e => Throw e
      | Return cls => init_shape_classes_from rest (<[__name__ cls := cls]> globals)
      end
  end.

Definition init_shape_classes (globals : gmap string AlarmWidgetClass)
    : py_result (gmap string AlarmWidgetClass) :=
  init_shape_classes_from SHAPES globals.

(** ** Sequences of calls on a widget *)

(** A call made on the widget: by its user, or by a channel delivering a
    connection or severity report. *)
Inductive Call :=
  | CallAddDevice (device : Device)
  | CallSetupAlarmConfig (device : Device)
  | CallClearAllAlarmConfigs
  | CallUpdateAlarmConfig
  | CallSetKindLevel (kind_level : KindLevel)
  | CallUpdateConnection (connected : bool) (addr : string)
  | CallUpdateSeverity (severity : Z) (addr : string)
  | CallUpdateCurrentAlarm.

Definition run_call (rejects : string → bool) (c : Call) : M unit :=
  match c with
  | CallAddDevice device => add_device rejects device
  | CallSetupAlarmConfig device => setup_alarm_config rejects device
  | CallClearAllAlarmConfigs => clear_all_alarm_configs
  | CallUpdateAlarmConfig => update_alarm_config
  | CallSetKindLevel kind_level => kindLevel_setter kind_level
  | CallUpdateConnection connected addr => update_connection connected addr
  | CallUpdateSeverity severity addr => update_severity severity addr
  | CallUpdateCurrentAlarm => update_current_alarm
  end.

(** The widget after a sequence of calls; a call that raises does not keep
    later calls from being made. *)
Definition run_calls (rejects : string → bool) (cs : list Call)
    (w : TyphosAlarmBase) : TyphosAlarmBase :=
  foldl (fun w c => state_after (run_call rejects c) w) w cs.


(** The summaries the widget went through: the one [__init__] stores, then
    every value sent on [alarm_changed]. *)
Definition summary_history (w : TyphosAlarmBase) : list Z :=
  AlarmLevel.DISCONNECTED :: alarm_changed w.

(** No two neighbours of a list are equal. *)
Fixpoint adjacent_distinct (xs : list Z) : Prop :=
  match xs with
  | [] => True
  | x :: rest =>
      match rest with
      | [] => True
      | y :: _ => x ≠ y
      end ∧ adjacent_distinct rest
  end.

(** The stored summary is the last of the summaries the widget went
    through, and no summary was sent twice in a row. *)
Definition history_sound (w : TyphosAlarmBase) : Prop :=
  last (summary_history w) = Some (alarm_summary w) ∧
  adjacent_distinct (summary_history w).

(** A slot call is in scope when its address is tracked; the other calls
    always are. *)
Definition call_in_scope (c : Call) (w : TyphosAlarmBase) : Prop :=
  match c with
  | CallUpdateConnection _ addr | CallUpdateSeverity _ addr => addr ∈ tracked w
  | _ => True
  end.

(** Every call of the sequence is in scope when it is made. *)
Fixpoint calls_in_scope (rejects : string → bool) (cs : list Call)
    (w : TyphosAlarmBase) : Prop :=
  match cs with
  | [] => True
  | c :: rest =>
      call_in_scope c w ∧ calls_in_scope rejects rest (state_after (run_call rejects c) w)
  end.

(** The severity and channel tables have the tracked addresses as keys. *)
Definition tables_aligned (w : TyphosAlarmBase) : Prop :=
  dom (addr_severity w) = tracked w ∧ dom (addr_channels w) = tracked w.

(** ** The command line (typhos/cli.py) *)

(** Loading devices and building a suite. What the libraries do (happi,
    pcdsutils, ophyd, the suite widget, Qt) is taken as given: each library
    call is a variable of the section. *)
Module Cli.
Section Loader.
(** Device objects, the suite widget and the main window. *)
Variables Dev Suite Window : Type.

(** [_create_happi_client(cfg)] gave a client; False also when it raised,
    the [except] clause then setting [happi_client = None]. *)
Variable happi_client : bool.

(** [klass_regex.findall(device)] *)
Variable findall : string → list (string * string).

(** The [try] block of a class entry, given the class, the argument text
    and [fake_devices]: the device it builds, or None when it raised. *)
Variable load_class : string → string → bool → option Dev.

(** [happi_client.load_device(name=device)], None when it raised. *)
Variable load_device : string → option Dev.

(** [clear_fake_device(device)], on the entry text or the device built from
    it: the exception it raises, if any. *)
Variable clear_fake_device : string + Dev → option py_exn.

(** [create_devices]: the loop, with [loaded_devs] as accumulator. *)
Fixpoint create_devices_loop (fake_devices : bool) (devices_arg : list string)
    (loaded_devs : list Dev) : py_result (list Dev) :=
  match devices_arg with
  | [] => Return loaded_devs
  | device :: rest =>
      match findall device with
      | (klass, args) :: _ =>
          let '(loaded_devs, device) :=
            match load_class klass args fake_devices with
            | Some dev => (loaded_devs ++ [dev], inr dev)
            | None => (loaded_devs, inl device)
            end in
          if fake_devices then
            match clear_fake_device device with
            | Some e => Throw e
            | None => create_devices_loop fake_devices rest loaded_devs
            end
          else create_devices_loop fake_devices rest loaded_devs
      | [] =>
          if negb happi_client then create_devices_loop fake_devices rest loaded_devs
          else if fake_devices then Throw NotImplementedError
          else
            let loaded_devs :=
              match load_device device with
              | Some dev => loaded_devs ++ [dev]
              | None => loaded_devs
              end in
            create_devices_loop fake_devices rest loaded_devs
      end
  end.

Definition create_devices (devices_arg : list string) (fake_devices : bool)
    : py_result (list Dev) :=
  create_devices_loop fake_devices devices_arg [].

(** The suite: [typhos.TyphosSuite()], the names of [suite.default_tools],
    [suite.add_tool(name, tool())], and [suite.add_device(device)] and
    [suite.show_subdisplay(device)] with whether they returned. *)
Variable new_suite : Suite.
Variable default_tools : list string.
Variable add_tool : string → Suite → Suite.
Variable suite_add_device : Dev → Suite → Suite * bool.
Variable show_subdisplay : Dev → Suite → Suite * bool.

(** [suite_from_devices] *)
Definition suite_from_devices (devices : list Dev) : Suite :=
  let suite := foldl (fun suite name => add_tool name suite) new_suite default_tools in
  foldl (fun suite device =>
           match suite_add_device device suite with
           | (suite, true) => fst (show_subdisplay device suite)
           | (suite, false) => suite
           end) suite devices.

(** [create_suite]: [loaded_devs] is a local variable that is assigned only
    when [devices] is not empty; reading it unassigned raises. *)
Definition create_suite (devices : list string) (fake_devices : bool)
    : py_result (option Suite) :=
  let bound :=
    if bool_decide (devices ≠ [])
    then match create_devices devices fake_devices with
         | Return loaded_devs => Return (Some loaded_devs)
         | Throw e => Throw e
         end
    else Return None in
  match bound with
  | Throw e => Throw e
  | Return None => Throw UnboundLocalError
  | Return (Some loaded_devs) =>
      if bool_decide (loaded_devs ≠ []) || bool_decide (devices = [])
      then Return (Some (suite_from_devices loaded_devs))
      else Return None
  end.

(** [launch_suite]: the window it shows and returns. *)
Variable launch_suite : Suite → Window.

(** [typhos_core]; a suite widget is a true value. *)
Definition typhos_core (devices : list string) (fake_devices : bool)
    : py_result (option Window) :=
  match create_suite devices fake_devices with
  | Throw e => Throw e
  | Return None => Return None
  | Return (Some suite) => Return (Some (launch_suite suite))
  end.

(** The parsed arguments this code reads itself; verbose, dark, stylesheet
    and happi_cfg only go to library calls. *)
Record Namespace := {
  args_devices : list string;
  args_fake_device : bool;
  args_version : bool;
  args_profile_modules : option (list string);
  args_profile_output : option string;
  args_benchmark : option (list string)
}.

(** What [typhos_cli] does besides loading and launching. *)
Inductive CliStep :=
  | PrintVersion
  | SetupProfiler
  | ToggleProfiler (on : bool)
  | CliSetup
  | RunBenchmarks (tests : list string)
  | SaveResults (file : string)
  | PrintResults.

(** A string option as a condition: set and not empty. *)
Definition truthy (o : option string) : bool :=
  match o with
  | Some s => negb (bool_decide (s = ""))
  | None => false
  end.

Definition profiling_on (args : Namespace) : bool :=
  bool_decide (args_profile_modules args ≠ None)
  || truthy (args_profile_output args)
  || bool_decide (args_benchmark args ≠ None).

(** [typhos_cli] after [parser.parse_args]: the steps taken, in order, and
    the value returned or the exception raised. *)
Definition typhos_cli (args : Namespace) : list CliStep * py_result (option Window) :=
  if args_version args then ([PrintVersion], Return None)
  else
    let start :=
      (if profiling_on args then [SetupProfiler; ToggleProfiler true] else [])
      ++ [CliSetup] in
    let finish :=
      if profiling_on args
      then [ToggleProfiler false;
            match args_profile_output args with
            | Some file => if truthy (Some file) then SaveResults file else PrintResults
            | None => PrintResults
            end]
      else [] in
    match args_benchmark args with
    | Some tests => (start ++ [RunBenchmarks tests] ++ finish, Return None)
    | None =>
        match typhos_core (args_devices args) (args_fake_device args) with
        | Throw e => (start, Throw e)
        | Return suite => (start ++ finish, Return suite)
        end
    end.
End Loader.

(** Sample library behaviour: entries of the form Class[...] are class
    entries, of which Broken[] fails to load; a happi client exists and
    knows the device at_happi only. *)
Definition sample_findall (device : string) : list (string * string) :=
  if bool_decide (device = "ophyd.EpicsMotor[]") then [("ophyd.EpicsMotor", "")]
  else if bool_decide (device = "Broken[]") then [("Broken", "")]
  else [].

Definition sample_load_class (klass args : string) (fake : bool) : option string :=
  if bool_decide (klass = "ophyd.EpicsMotor") then Some "motor" else None.

Definition sample_load_device (device : string) : option string :=
  if bool_decide (device = "at_happi") then Some "happi device" else None.

Definition sample_clear_fake_device (device : string + string) : option py_exn :=
  match device with
  | inl _ => Some (OtherError "AttributeError")
  | inr _ => None
  end.

(** A suite as the list of the devices added to it, without tools. *)
Definition sample_suite_add_device (device : string) (suite : list string)
    : list string * bool :=
  (suite ++ [device], true).

Definition sample_show_subdisplay (device : string) (suite : list string)
    : list string * bool :=
  (suite, true).

Definition sample_create_devices (happi_client : bool) (devices_arg : list string)
    (fake_devices : bool) : py_result (list string) :=
  create_devices string happi_client sample_findall sample_load_class
    sample_load_device sample_clear_fake_device devices_arg fake_devices.

Definition sample_typhos_cli (args : Namespace) :=
  typhos_cli string (list string) (list string) true sample_findall
    sample_load_class sample_load_device sample_clear_fake_device
    [] [] (fun _ suite => suite) sample_suite_add_device sample_show_subdisplay
    (fun suite => suite) args.
End Cli.

(** ** Facts about the built-ins *)

Lemma elem_of_values `{Countable K} {V} (d : gmap K V) (v : V) :
  v ∈ values d ↔ ∃ k, d !! k = Some v.
Proof.
  unfold values. rewrite list_elem_of_fmap. split.
  - intros [[k v'] [-> Hin]]. exists k. by apply elem_of_map_to_list.
  - intros [k Hk]. exists (k, v). split; [done|]. by apply elem_of_map_to_list.
Qed.

Lemma values_empty `{Countable K} {V} : values (∅ : gmap K V) = [].
Proof. unfold values. by rewrite map_to_list_empty. Qed.

Lemma values_nil_inv `{Countable K} {V} (d : gmap K V) : values d = [] → d = ∅.
Proof.
  unfold values. intros Hnil. apply map_to_list_empty_iff.
  by apply fmap_nil_inv in Hnil.
Qed.

Lemma all_true (xs : list bool) : all xs = true ↔ ∀ x, x ∈ xs → x = true.
Proof.
  unfold all. rewrite forallb_forall. split.
  - intros Hall x Hx. apply Hall. by apply list_elem_of_In.
  - intros Hall x Hx. apply Hall. by apply list_elem_of_In.
Qed.

Lemma all_false (xs : list bool) : all xs = false ↔ false ∈ xs.
Proof.
  split.
  - intros Hf. destruct (decide (false ∈ xs)) as [|Hn]; [done|].
    assert (all xs = true) as Ht; [|congruence].
    apply all_true. intros [] Hx; [done|contradiction].
  - intros Hin. destruct (all xs) eqn:Ht; [|done].
    by apply (proj1 (all_true xs) Ht) in Hin.
Qed.

Lemma foldl_max_ge (xs : list Z) (x : Z) : x ≤ foldl Z.max x xs.
Proof.
  revert x. induction xs as [|y ys IH]; intros x; simpl; [lia|].
  specialize (IH (Z.max x y)). lia.
Qed.

Lemma foldl_max_upper (xs : list Z) (x y : Z) : y ∈ xs → y ≤ foldl Z.max x xs.
Proof.
  revert x. induction xs as [|z zs IH]; intros x Hy; simpl.
  - by apply elem_of_nil in Hy.
  - apply elem_of_cons in Hy as [->|Hy].
    + pose proof (foldl_max_ge zs (Z.max x z)). lia.
    + by apply IH.
Qed.

Lemma foldl_max_elem (xs : list Z) (x : Z) :
  foldl Z.max x xs = x ∨ foldl Z.max x xs ∈ xs.
Proof.
  revert x. induction xs as [|z zs IH]; intros x; simpl; [by left|].
  destruct (IH (Z.max x z)) as [Heq|Hin].
  - rewrite Heq. destruct (Z.max_spec x z) as [[_ ->]|[_ ->]].
    + right. apply elem_of_cons. by left.
    + by left.
  - right. apply elem_of_cons. by right.
Qed.

Lemma py_max_spec (xs : list Z) (m : Z) :
  py_max xs = Ok m → m ∈ xs ∧ ∀ x, x ∈ xs → x ≤ m.
Proof.
  destruct xs as [|x rest]; simpl; [done|].
  intros [= <-]. split.
  - destruct (foldl_max_elem rest x) as [->|Hin]; apply elem_of_cons; auto.
  - intros y [->|Hy]%elem_of_cons.
    + apply foldl_max_ge.
    + by apply foldl_max_upper.
Qed.

Lemma py_max_nonempty (xs : list Z) : xs ≠ [] → ∃ m, py_max xs = Ok m.
Proof. destruct xs; [done|]. simpl. eauto. Qed.

(** ** The recompute *)

Lemma compute_alarm_disconnected (w : TyphosAlarmBase) (a : string) :
  addr_connected w !! a = Some false →
  compute_alarm w = Ok AlarmLevel.DISCONNECTED.
Proof.
  intros Ha. unfold compute_alarm.
  assert (all (values (addr_connected w)) = false) as ->; [|done].
  apply all_false, elem_of_values. eauto.
Qed.

Lemma compute_alarm_connected (w : TyphosAlarmBase) :
  (∀ a c, addr_connected w !! a = Some c → c = true) →
  compute_alarm w = py_max (values (addr_severity w)).
Proof.
  intros Hall. unfold compute_alarm.
  assert (all (values (addr_connected w)) = true) as ->; [|done].
  apply all_true. intros c [a Ha]%elem_of_values. eauto.
Qed.

Lemma update_current_alarm_ok (w : TyphosAlarmBase) (new_alarm : Z) :
  compute_alarm w = Ok new_alarm →
  update_current_alarm w =
    (Ok tt,
     set_alarm_summary new_alarm
       (if bool_decide (new_alarm ≠ alarm_summary w)
        then set_alarm_changed (alarm_changed w ++ [new_alarm]) w else w)).
Proof.
  intros Hc. unfold update_current_alarm, bind, get. rewrite Hc.
  by destruct (bool_decide _).
Qed.

Lemma update_current_alarm_raise (w : TyphosAlarmBase) (e : exn) :
  compute_alarm w = Raise e → update_current_alarm w = (Raise e, w).
Proof. intros Hc. unfold update_current_alarm, bind, get. by rewrite Hc. Qed.

(** C1. With a non-empty tracked channel set (every tracked address having
    a severity entry), the recompute stores Disconnected as soon as one
    tracked channel has connected = false, whatever the severities; and
    when every tracked channel is connected it stores the maximum of the
    tracked severities: a severity that occurs, and that no other exceeds. *)
Theorem update_current_alarm_summary (w : TyphosAlarmBase) :
  tracked w ≠ ∅ →
  dom (addr_severity w) = tracked w →
  ((∃ a, addr_connected w !! a = Some false) →
     outcome update_current_alarm w = Ok tt ∧
     alarm_summary (state_after update_current_alarm w) = AlarmLevel.DISCONNECTED) ∧
  ((∀ a, a ∈ tracked w → addr_connected w !! a = Some true) →
     ∃ m, outcome update_current_alarm w = Ok tt ∧
          alarm_summary (state_after update_current_alarm w) = m ∧
          (∃ a, a ∈ tracked w ∧ addr_severity w !! a = Some m) ∧
          (∀ a s, addr_severity w !! a = Some s → s ≤ m)).
Proof.
  intros Hne Hdom. split.
  - intros [a Ha]. unfold outcome, state_after.
    rewrite (update_current_alarm_ok w _ (compute_alarm_disconnected w a Ha)).
    by destruct (bool_decide _).
  - intros Hall.
    assert (compute_alarm w = py_max (values (addr_severity w))) as Hc.
    { apply compute_alarm_connected. intros a c Hac.
      assert (a ∈ tracked w) as Hin by (apply elem_of_dom; eauto).
      specialize (Hall a Hin). congruence. }
    destruct (py_max_nonempty (values (addr_severity w))) as [m Hm].
    { intros Hnil. apply values_nil_inv in Hnil.
      rewrite Hnil, dom_empty_L in Hdom. by apply Hne. }
    exists m. unfold outcome, state_after.
    rewrite (update_current_alarm_ok w m) by congruence.
    apply py_max_spec in Hm as [Hin Hub].
    split; [done|]. split; [by destruct (bool_decide _)|]. split.
    + apply elem_of_values in Hin as [a Ha]. exists a. split; [|done].
      rewrite <- Hdom. apply elem_of_dom. eauto.
    + intros a s Has. apply Hub, elem_of_values. eauto.
Qed.

(** C6. A recompute that yields a value sends it on alarm_changed exactly
    when it differs from the stored summary, and sends nothing otherwise;
    either way the stored summary becomes the value just computed. *)
Theorem update_current_alarm_notifies (w : TyphosAlarmBase) (new_alarm : Z) :
  compute_alarm w = Ok new_alarm →
  outcome update_current_alarm w = Ok tt ∧
  alarm_summary (state_after update_current_alarm w) = new_alarm ∧
  (new_alarm ≠ alarm_summary w →
     alarm_changed (state_after update_current_alarm w)
       = alarm_changed w ++ [new_alarm]) ∧
  (new_alarm = alarm_summary w →
     alarm_changed (state_after update_current_alarm w) = alarm_changed w).
Proof.
  intros Hc. unfold outcome, state_after.
  rewrite (update_current_alarm_ok w new_alarm Hc).
  split; [done|]. split; [by destruct (bool_decide _)|]. split; intros Hcmp.
  - by rewrite bool_decide_true.
  - by rewrite bool_decide_false by (intros Hn; by apply Hn).
Qed.

(** C8. For tiers T1 < T2 every walk entry the T1 filter accepts is accepted
    by the T2 filter, so the signals (and the addresses) resolved for a
    device at T1 are among those resolved at T2. *)
Theorem KIND_FILTERS_nested (device : Device) (t1 t2 : KindLevel) :
  KindLevel_lt t1 t2 →
  (∀ walk, KIND_FILTERS t1 walk = true → KIND_FILTERS t2 walk = true) ∧
  get_all_signals_from_device device (KIND_FILTERS t1)
    ⊆ get_all_signals_from_device device (KIND_FILTERS t2) ∧
  map channel_from_signal (get_all_signals_from_device device (KIND_FILTERS t1))
    ⊆ map channel_from_signal (get_all_signals_from_device device (KIND_FILTERS t2)).
Proof.
  intros Hlt.
  assert (∀ walk, KIND_FILTERS t1 walk = true → KIND_FILTERS t2 walk = true) as Himp.
  { intros walk. unfold KindLevel_lt in Hlt.
    destruct t1, t2; simpl in *; try lia; try done.
    - intros ->%bool_decide_eq_true. by rewrite bool_decide_true.
    - intros ->%bool_decide_eq_true. done.
    - intros [->%bool_decide_eq_true| ->%bool_decide_eq_true]%orb_true_iff; done. }
  assert (get_all_signals_from_device device (KIND_FILTERS t1)
            ⊆ get_all_signals_from_device device (KIND_FILTERS t2)) as Hsub.
  { intros sig. unfold get_all_signals_from_device.
    rewrite !list_elem_of_In, !filter_In. intros [Hin Hf]. split; auto. }
  split; [done|]. split; [done|].
  intros a. rewrite !list_elem_of_In, !in_map_iff.
  intros [sig [Hsig Hin]]. exists sig. split; [done|].
  apply list_elem_of_In, Hsub, list_elem_of_In, Hin.
Qed.

(** ** Teardown and the tier setter *)


Lemma for_each_disconnect (chs : list PyDMChannel) (w : TyphosAlarmBase) :
  for_each chs ch_disconnect w
    = (Ok tt, set_subscriptions (close_all chs (subscriptions w)) w).
Proof.
  revert w. induction chs as [|ch chs IH]; intros w.
  - by destruct w.
  - simpl. unfold bind, ch_disconnect, modify. rewrite IH. by destruct w.
Qed.

Lemma close_all_lookup_closed (chs : list PyDMChannel) (s : gmap nat string)
    (ch : PyDMChannel) :
  ch ∈ chs → close_all chs s !! ch_id ch = None.
Proof.
  unfold close_all. revert s. induction chs as [|c chs IH] using rev_ind; intros s Hin.
  - by apply elem_of_nil in Hin.
  - rewrite foldl_app. simpl. apply elem_of_app in Hin as [Hin|Hin].
    + destruct (decide (ch_id c = ch_id ch)) as [->|Hne].
      * apply lookup_delete_eq.
      * rewrite lookup_delete_ne by done. by apply IH.
    + apply list_elem_of_singleton in Hin as ->. apply lookup_delete_eq.
Qed.

Lemma close_all_lookup_other (chs : list PyDMChannel) (s : gmap nat string) (c : nat) :
  c ∉ ch_id <$> chs → close_all chs s !! c = s !! c.
Proof.
  unfold close_all. revert s. induction chs as [|ch chs IH]; intros s Hnot; [done|].
  simpl. rewrite fmap_cons in Hnot. apply not_elem_of_cons in Hnot as [Hne Hnot].
  rewrite IH by done. by apply lookup_delete_ne.
Qed.

Lemma clear_all_alarm_configs_run (w : TyphosAlarmBase) :
  clear_all_alarm_configs w =
    (Ok tt,
     {| _kind_level := _kind_level w; addr_connected := ∅; addr_severity := ∅;
        addr_channels := ∅; device_channels := ∅;
        alarm_summary := alarm_summary w; devices := devices w;
        created := created w;
        subscriptions := close_all (values (addr_channels w)) (subscriptions w);
        alarm_changed := alarm_changed w |}).
Proof.
  unfold clear_all_alarm_configs, bind, get. by rewrite for_each_disconnect.
Qed.

Lemma for_each_setup_alarms (ds : list Device) (w : TyphosAlarmBase) :
  for_each ds setup_alarms w
    = (match ds with [] => Ok tt | _ :: _ => Raise AttributeError end, w).
Proof. by destruct ds. Qed.

Lemma kindLevel_setter_run (kind_level : KindLevel) (w : TyphosAlarmBase) :
  kindLevel_setter kind_level w =
    (match devices w with [] => Ok tt | _ :: _ => Raise AttributeError end,
     {| _kind_level := kind_level; addr_connected := ∅; addr_severity := ∅;
        addr_channels := ∅; device_channels := ∅;
        alarm_summary := alarm_summary w; devices := devices w;
        created := created w;
        subscriptions := close_all (values (addr_channels w)) (subscriptions w);
        alarm_changed := alarm_changed w |}).
Proof.
  unfold kindLevel_setter, update_alarm_config, bind, modify, get.
  rewrite clear_all_alarm_configs_run. simpl. by rewrite for_each_setup_alarms.
Qed.

(** C2, as the code has it. Setting the tier stores the new tier and tears
    the tracking down whether or not the tier changed: every channel of the
    channel table is disconnected. The setter does not recompute the
    summary: the stored summary is as before and nothing is sent on
    alarm_changed. *)
Theorem kindLevel_setter_teardown (kind_level : KindLevel) (w : TyphosAlarmBase) :
  kindLevel (state_after (kindLevel_setter kind_level) w) = kind_level ∧
  (∀ a ch, addr_channels w !! a = Some ch →
     subscriptions (state_after (kindLevel_setter kind_level) w) !! ch_id ch = None) ∧
  alarm_summary (state_after (kindLevel_setter kind_level) w) = alarm_summary w ∧
  alarm_changed (state_after (kindLevel_setter kind_level) w) = alarm_changed w.
Proof.
  unfold state_after. rewrite kindLevel_setter_run. simpl.
  split; [done|]. split; [|done].
  intros a ch Hch. apply close_all_lookup_closed, elem_of_values. eauto.
Qed.

(** C3. A tier change sends at most one value on alarm_changed (in fact
    none), sends none when the stored summary after the rescope equals the
    one before, and has sent none at the point between the teardown and the
    per-device setup. *)
Theorem kindLevel_setter_notifications (kind_level : KindLevel) (w : TyphosAlarmBase) :
  alarm_changed (state_after (kindLevel_setter kind_level) w)
    = alarm_changed w ++ notifications (kindLevel_setter kind_level) w ∧
  (length (notifications (kindLevel_setter kind_level) w) ≤ 1)%nat ∧
  (alarm_summary (state_after (kindLevel_setter kind_level) w) = alarm_summary w →
     notifications (kindLevel_setter kind_level) w = []) ∧
  notifications (modify (set_kind_level kind_level) ;;; clear_all_alarm_configs) w = [].
Proof.
  assert (notifications (kindLevel_setter kind_level) w = []) as Hnone.
  { unfold notifications, state_after. rewrite kindLevel_setter_run. simpl.
    by rewrite drop_all. }
  rewrite Hnone, app_nil_r. split.
  - unfold state_after. by rewrite kindLevel_setter_run.
  - split; [simpl; lia|]. split; [done|].
    unfold notifications, state_after, bind, modify.
    rewrite clear_all_alarm_configs_run. simpl. by rewrite drop_all.
Qed.

(** ** Attaching a device *)

Lemma lookup_foldl_insert_notin `{Countable K} {X V} (key : X → K) (val : X → V)
    (l : list X) (m : gmap K V) (k : K) :
  k ∉ key <$> l →
  foldl (fun m x => <[key x := val x]> m) m l !! k = m !! k.
Proof.
  revert m. induction l as [|x l IH]; intros m Hk; [done|].
  rewrite fmap_cons in Hk. apply not_elem_of_cons in Hk as [Hne Hk].
  simpl. rewrite IH by done. by apply lookup_insert_ne.
Qed.

Lemma lookup_foldl_insert_in `{Countable K} {X V} (key : X → K) (val : X → V)
    (l : list X) (m : gmap K V) (k : K) :
  k ∈ key <$> l →
  ∃ x, x ∈ l ∧ key x = k ∧
       foldl (fun m x => <[key x := val x]> m) m l !! k = Some (val x).
Proof.
  revert m. induction l as [|x l IH]; intros m Hk.
  - by apply elem_of_nil in Hk.
  - simpl. destruct (decide (k ∈ key <$> l)) as [Hin|Hnot].
    + destruct (IH (<[key x := val x]> m) Hin) as (y & Hy & Hky & Hl).
      exists y. split; [by apply elem_of_cons; right|done].
    + rewrite fmap_cons in Hk. apply elem_of_cons in Hk as [->|Hk]; [|done].
      exists x. split; [by apply elem_of_cons; left|]. split; [done|].
      rewrite lookup_foldl_insert_notin by done. apply lookup_insert_eq.
Qed.

Lemma new_channels_addresses (n : nat) (addrs : list string) :
  ch_address <$> new_channels n addrs = addrs.
Proof.
  revert n. induction addrs as [|a addrs IH]; intros n; [done|].
  simpl. by rewrite IH.
Qed.

Lemma new_channels_lookup (n : nat) (addrs : list string) (i : nat) :
  new_channels n addrs !! i
    = (fun a => {| ch_id := n + i; ch_address := a |}) <$> addrs !! i.
Proof.
  revert n i. induction addrs as [|a addrs IH]; intros n i; [done|].
  destruct i as [|i]; simpl.
  - by rewrite Nat.add_0_r.
  - rewrite IH. by replace (S n + i)%nat with (n + S i)%nat by lia.
Qed.

Lemma new_channels_elem (n : nat) (addrs : list string) (ch : PyDMChannel) :
  ch ∈ new_channels n addrs →
  ∃ i, addrs !! i = Some (ch_address ch) ∧ ch_id ch = (n + i)%nat.
Proof.
  intros [i Hi]%list_elem_of_lookup. exists i.
  rewrite new_channels_lookup in Hi.
  destruct (addrs !! i) as [a|]; simplify_eq/=. done.
Qed.

Lemma new_channels_app (n : nat) (l1 l2 : list string) :
  new_channels n (l1 ++ l2)
    = new_channels n l1 ++ new_channels (n + length l1) l2.
Proof.
  revert n. induction l1 as [|a l1 IH]; intros n; simpl.
  - by rewrite Nat.add_0_r.
  - rewrite IH. by replace (S n + length l1)%nat with (n + S (length l1))%nat by lia.
Qed.

Section TransportFacts.
Variable rejects : string -> bool.


Lemma for_each_track_channel (chs : list PyDMChannel) (w : TyphosAlarmBase) :
  for_each chs (track_channel rejects) w =
    (if all_accepted rejects chs then Ok tt else Raise SubscriptionOpenError,
     {| _kind_level := _kind_level w;
        addr_connected :=
          foldl (fun m ch => <[ch_address ch := false]> m)
                (addr_connected w) (processed rejects chs);
        addr_severity :=
          foldl (fun m ch => <[ch_address ch := AlarmLevel.INVALID]> m)
                (addr_severity w) (processed rejects chs);
        addr_channels :=
          foldl (fun m ch => <[ch_address ch := ch]> m)
                (addr_channels w) (processed rejects chs);
        device_channels := device_channels w;
        alarm_summary := alarm_summary w;
        devices := devices w;
        created := created w;
        subscriptions :=
          foldl (fun s ch => <[ch_id ch := ch_address ch]> s)
                (subscriptions w) (accepted rejects chs);
        alarm_changed := alarm_changed w |}).
Proof.
  revert w. induction chs as [|ch chs IH]; intros w.
  - by destruct w.
  - simpl. unfold bind, track_channel, ch_connect, modify, raise, bind.
    destruct (rejects (ch_address ch)) eqn:Hr; simpl; [done|].
    by rewrite IH.
Qed.

Lemma processed_all (chs : list PyDMChannel) :
  all_accepted rejects chs = true → processed rejects chs = chs ∧ accepted rejects chs = chs.
Proof.
  induction chs as [|ch chs IH]; [done|]. simpl.
  intros [Hr Hrest]%andb_true_iff. apply negb_true_iff in Hr. rewrite Hr.
  destruct (IH Hrest) as [-> ->]. done.
Qed.

Lemma all_accepted_new_channels (n : nat) (addrs : list string) :
  (∀ a, a ∈ addrs → rejects a = false) →
  all_accepted rejects (new_channels n addrs) = true.
Proof.
  intros Hacc. unfold all_accepted. apply forallb_forall.
  intros ch Hch%list_elem_of_In. apply negb_true_iff, Hacc.
  rewrite <- (new_channels_addresses n addrs).
  apply list_elem_of_fmap. eauto.
Qed.
End TransportFacts.


Lemma lookup_foldl_insert_const `{Countable K} {X V} (key : X → K) (v : V)
    (l : list X) (m : gmap K V) (k : K) :
  foldl (fun m x => <[key x := v]> m) m l !! k
    = if decide (k ∈ key <$> l) then Some v else m !! k.
Proof.
  case_decide as Hk.
  - by destruct (lookup_foldl_insert_in key (fun _ => v) l m k Hk) as (x & _ & _ & ->).
  - by apply (lookup_foldl_insert_notin key (fun _ => v)).
Qed.

Lemma dom_foldl_insert `{Countable K} {X V} (key : X → K) (val : X → V)
    (l : list X) (m : gmap K V) :
  dom (foldl (fun m x => <[key x := val x]> m) m l) = dom m ∪ list_to_set (key <$> l).
Proof.
  revert m. induction l as [|x l IH]; intros m; simpl.
  - by rewrite union_empty_r_L.
  - rewrite IH, dom_insert_L.
    by rewrite (comm_L (∪) {[key x]} (dom m)), (assoc_L (∪)).
Qed.

Section AttachFacts.
Variable rejects : string -> bool.

Lemma setup_alarm_config_run (device : Device) (w : TyphosAlarmBase) :
  setup_alarm_config rejects device w =
    (if all_accepted rejects (new_channels (created w) (resolved_addresses device w))
     then Ok tt else Raise SubscriptionOpenError,
     {| _kind_level := _kind_level w;
        addr_connected :=
          foldl (fun m ch => <[ch_address ch := false]> m) (addr_connected w)
            (processed rejects (new_channels (created w) (resolved_addresses device w)));
        addr_severity :=
          foldl (fun m ch => <[ch_address ch := AlarmLevel.INVALID]> m) (addr_severity w)
            (processed rejects (new_channels (created w) (resolved_addresses device w)));
        addr_channels :=
          foldl (fun m ch => <[ch_address ch := ch]> m) (addr_channels w)
            (processed rejects (new_channels (created w) (resolved_addresses device w)));
        device_channels :=
          <[name device := new_channels (created w) (resolved_addresses device w)]>
            (device_channels w);
        alarm_summary := alarm_summary w;
        devices := devices w;
        created := (created w + length (resolved_addresses device w))%nat;
        subscriptions :=
          foldl (fun s ch => <[ch_id ch := ch_address ch]> s) (subscriptions w)
            (accepted rejects (new_channels (created w) (resolved_addresses device w)));
        alarm_changed := alarm_changed w |}).
Proof.
  unfold setup_alarm_config, bind, get, modify.
  fold (resolved_addresses device w).
  by rewrite for_each_track_channel.
Qed.

Lemma add_device_run (device : Device) (w : TyphosAlarmBase) :
  add_device rejects device w =
    (outcome (setup_alarm_config rejects device) w,
     set_devices (devices w ++ [device])
       (state_after (setup_alarm_config rejects device) w)).
Proof.
  unfold add_device, super_add_device, bind, modify, outcome, state_after.
  rewrite !setup_alarm_config_run. done.
Qed.

(** The table entries written by the loop depend on the addresses only,
    not on the identities of the channel objects. *)
Lemma processed_addresses (n n' : nat) (addrs : list string) :
  ch_address <$> processed rejects (new_channels n addrs)
    = ch_address <$> processed rejects (new_channels n' addrs).
Proof.
  revert n n'. induction addrs as [|a addrs IH]; intros n n'; [done|].
  cbn [new_channels processed ch_address]. destruct (rejects a); [done|].
  rewrite !fmap_cons. f_equal. apply IH.
Qed.

Lemma new_channel_ids_fresh (n : nat) (addrs : list string) (c : nat)
    (sel : list PyDMChannel → list PyDMChannel) :
  (∀ chs ch, ch ∈ sel chs → ch ∈ chs) →
  (c < n)%nat → c ∉ ch_id <$> sel (new_channels n addrs).
Proof.
  intros Hsel Hc [ch [-> Hin]]%list_elem_of_fmap.
  apply Hsel, new_channels_elem in Hin as (i & _ & Hid). lia.
Qed.

Lemma accepted_sub (chs : list PyDMChannel) (ch : PyDMChannel) :
  ch ∈ accepted rejects chs → ch ∈ chs.
Proof.
  induction chs as [|c chs IH]; simpl; [done|].
  destruct (rejects (ch_address c)).
  - by intros ?%elem_of_nil.
  - intros [->|Hin]%elem_of_cons; apply elem_of_cons; auto.
Qed.

Lemma processed_sub (chs : list PyDMChannel) (ch : PyDMChannel) :
  ch ∈ processed rejects chs → ch ∈ chs.
Proof.
  induction chs as [|c chs IH]; simpl; [done|].
  intros [->|Hin]%elem_of_cons; apply elem_of_cons; [by left|].
  destruct (rejects (ch_address c)); [by apply elem_of_nil in Hin|auto].
Qed.

(** Subscriptions of channel objects that existed before the call are
    left as they were. *)
Lemma setup_alarm_config_old_subscriptions (device : Device)
    (w : TyphosAlarmBase) (c : nat) :
  (c < created w)%nat →
  subscriptions (state_after (setup_alarm_config rejects device) w) !! c
    = subscriptions w !! c.
Proof.
  intros Hc. unfold state_after. rewrite setup_alarm_config_run. simpl.
  apply (lookup_foldl_insert_notin ch_id ch_address).
  by apply (new_channel_ids_fresh _ _ _ (accepted rejects)); [apply accepted_sub|].
Qed.

(** The stored summary and the alarm_changed signal are not touched. *)
Lemma setup_alarm_config_silent (device : Device) (w : TyphosAlarmBase) :
  alarm_summary (state_after (setup_alarm_config rejects device) w) = alarm_summary w ∧
  alarm_changed (state_after (setup_alarm_config rejects device) w) = alarm_changed w ∧
  _kind_level (state_after (setup_alarm_config rejects device) w) = _kind_level w.
Proof. unfold state_after. by rewrite setup_alarm_config_run. Qed.
End AttachFacts.

(** ** Properties of attach *)

(** C10. When the transport accepts the device's addresses,
    [setup_alarm_config] returns normally and, for every address it
    resolves, also one already tracked for another device: the connection
    entry is False, the severity entry is Invalid, the channel table holds
    a channel object created by this call, and the channel object the
    table held before keeps its subscription as it was. *)
Theorem setup_alarm_config_resets (rejects : string → bool) (device : Device)
    (w : TyphosAlarmBase) :
  (∀ a, a ∈ resolved_addresses device w → rejects a = false) →
  channels_exist w →
  outcome (setup_alarm_config rejects device) w = Ok tt ∧
  ∀ a, a ∈ resolved_addresses device w →
    addr_connected (state_after (setup_alarm_config rejects device) w) !! a
      = Some false ∧
    addr_severity (state_after (setup_alarm_config rejects device) w) !! a
      = Some AlarmLevel.INVALID ∧
    (∃ ch, addr_channels (state_after (setup_alarm_config rejects device) w) !! a
             = Some ch ∧
           ch_address ch = a ∧ (created w ≤ ch_id ch)%nat ∧
           (ch_id ch < created (state_after (setup_alarm_config rejects device) w))%nat) ∧
    (∀ ch0, addr_channels w !! a = Some ch0 →
       subscriptions (state_after (setup_alarm_config rejects device) w) !! ch_id ch0
         = subscriptions w !! ch_id ch0).
Proof.
  intros Hacc Hwf.
  pose proof (all_accepted_new_channels rejects (created w) _ Hacc) as Hall.
  destruct (processed_all rejects _ Hall) as [Hproc _].
  split.
  { unfold outcome. rewrite setup_alarm_config_run. simpl. by rewrite Hall. }
  intros a Ha.
  assert (a ∈ ch_address <$> new_channels (created w) (resolved_addresses device w))
    as Hin by (by rewrite new_channels_addresses).
  split; [|split; [|split]].
  - unfold state_after. rewrite setup_alarm_config_run. simpl.
    rewrite Hproc, lookup_foldl_insert_const. by rewrite decide_True.
  - unfold state_after. rewrite setup_alarm_config_run. simpl.
    rewrite Hproc, lookup_foldl_insert_const. by rewrite decide_True.
  - unfold state_after. rewrite setup_alarm_config_run. simpl. rewrite Hproc.
    destruct (lookup_foldl_insert_in ch_address (fun ch => ch)
                (new_channels (created w) (resolved_addresses device w))
                (addr_channels w) a Hin) as (ch & Hch & Hadr & Hlk).
    exists ch. split; [done|]. split; [done|].
    apply new_channels_elem in Hch as (i & Hi & Hid).
    apply lookup_lt_Some in Hi. lia.
  - intros ch0 Hch0. apply setup_alarm_config_old_subscriptions.
    by apply (Hwf a ch0).
Qed.

(** C5, as the code has it. When the transport accepts the device's
    addresses, attach creates and opens one new subscription for each
    address it resolves, in order, whether or not that address already has
    an open subscription, and leaves the subscriptions of all earlier
    channel objects as they were. *)
Theorem add_device_opens_every_address (rejects : string → bool) (device : Device)
    (w : TyphosAlarmBase) :
  (∀ a, a ∈ resolved_addresses device w → rejects a = false) →
  outcome (add_device rejects device) w = Ok tt ∧
  created (state_after (add_device rejects device) w)
    = (created w + length (resolved_addresses device w))%nat ∧
  (∀ i a, resolved_addresses device w !! i = Some a →
     subscriptions (state_after (add_device rejects device) w) !! (created w + i)%nat
       = Some a) ∧
  (∀ c, (c < created w)%nat →
     subscriptions (state_after (add_device rejects device) w) !! c
       = subscriptions w !! c).
Proof.
  intros Hacc.
  pose proof (all_accepted_new_channels rejects (created w) _ Hacc) as Hall.
  destruct (processed_all rejects _ Hall) as [_ Hopen].
  unfold outcome at 1, state_after. rewrite add_device_run. simpl.
  split; [|split; [|split]].
  - unfold outcome. rewrite setup_alarm_config_run. simpl. by rewrite Hall.
  - unfold state_after. by rewrite setup_alarm_config_run.
  - intros i a Hi. unfold state_after. rewrite setup_alarm_config_run. simpl.
    rewrite Hopen.
    assert ((created w + i)%nat
              ∈ ch_id <$> new_channels (created w) (resolved_addresses device w)) as Hin.
    { apply list_elem_of_fmap.
      exists {| ch_id := created w + i; ch_address := a |}. split; [done|].
      apply list_elem_of_lookup. exists i. by rewrite new_channels_lookup, Hi. }
    destruct (lookup_foldl_insert_in ch_id ch_address _ (subscriptions w) _ Hin)
      as (ch & Hch & Hid & ->).
    apply new_channels_elem in Hch as (j & Hj & Hidj).
    assert (j = i) as -> by lia. congruence.
  - intros c Hc. by apply setup_alarm_config_old_subscriptions.
Qed.

Lemma track_twice_const {V} (rejects : string → bool) (v : V) (n n' : nat)
    (addrs : list string) (m : gmap string V) :
  foldl (fun m ch => <[ch_address ch := v]> m)
        (foldl (fun m ch => <[ch_address ch := v]> m) m
               (processed rejects (new_channels n addrs)))
        (processed rejects (new_channels n' addrs))
  = foldl (fun m ch => <[ch_address ch := v]> m) m
          (processed rejects (new_channels n addrs)).
Proof.
  apply map_eq. intros k. rewrite !lookup_foldl_insert_const.
  rewrite (processed_addresses rejects n' n). by repeat case_decide.
Qed.

(** C9. Attaching a device a second time leaves the tracked address set,
    the connection and severity entries, the addresses of the channel
    table, the stored summary and the value a recompute would give as they
    were after the first attach; the second attach ends as the first did. *)
Theorem add_device_twice (rejects : string → bool) (device : Device)
    (w : TyphosAlarmBase) :
  let w1 := state_after (add_device rejects device) w in
  let w2 := state_after (add_device rejects device) w1 in
  tracked w2 = tracked w1 ∧
  addr_connected w2 = addr_connected w1 ∧
  addr_severity w2 = addr_severity w1 ∧
  dom (addr_channels w2) = dom (addr_channels w1) ∧
  alarm_summary w2 = alarm_summary w1 ∧
  compute_alarm w2 = compute_alarm w1 ∧
  outcome (add_device rejects device) w1 = outcome (add_device rejects device) w.
Proof.
  intros w1 w2.
  assert (addr_connected w2 = addr_connected w1) as Hconn.
  { subst w1 w2. unfold state_after. rewrite !add_device_run. simpl.
    unfold state_after. rewrite !setup_alarm_config_run. simpl.
    unfold resolved_addresses. simpl. apply track_twice_const. }
  assert (addr_severity w2 = addr_severity w1) as Hsev.
  { subst w1 w2. unfold state_after. rewrite !add_device_run. simpl.
    unfold state_after. rewrite !setup_alarm_config_run. simpl.
    unfold resolved_addresses. simpl. apply track_twice_const. }
  split; [unfold tracked; by rewrite Hconn|].
  split; [done|]. split; [done|]. split; [|split; [|split]].
  - subst w1 w2. unfold state_after. rewrite !add_device_run. simpl.
    unfold state_after. rewrite !setup_alarm_config_run. simpl.
    unfold resolved_addresses. simpl. rewrite !dom_foldl_insert.
    rewrite (processed_addresses rejects (created w + _) (created w)).
    by rewrite <- (assoc_L (∪)), (idemp_L (∪)).
  - subst w1 w2. unfold state_after. rewrite !add_device_run. simpl.
    unfold state_after. by rewrite !setup_alarm_config_run.
  - unfold compute_alarm. by rewrite Hconn, Hsev.
  - subst w1. unfold outcome, state_after. rewrite !add_device_run. simpl.
    unfold outcome, state_after. rewrite !setup_alarm_config_run. simpl.
    unfold resolved_addresses. simpl. unfold all_accepted.
    f_equal. clear. generalize (created w) at 2.
    generalize (created w + length
      (map channel_from_signal
         (get_all_signals_from_device device (KIND_FILTERS (_kind_level w)))))%nat.
    induction (map channel_from_signal
         (get_all_signals_from_device device (KIND_FILTERS (_kind_level w))))
      as [|a addrs IH]; intros n n'; [done|].
    simpl. destruct (rejects a); simpl; [done|]. apply IH.
Qed.

(** C4, as the code has it. With an empty tracked set the stored summary
    is whatever was stored last: a newly built widget has no tracked
    address and summary Disconnected; attaching a device of which the tier
    selects no signal changes neither the tracked set nor the stored
    summary; and the teardown empties the tracked set and keeps the stored
    summary. *)
Theorem empty_scope_summary :
  (tracked __init__ = ∅ ∧ alarm_summary __init__ = AlarmLevel.DISCONNECTED) ∧
  (∀ rejects device w,
     resolved_addresses device w = [] →
     outcome (add_device rejects device) w = Ok tt ∧
     tracked (state_after (add_device rejects device) w) = tracked w ∧
     alarm_summary (state_after (add_device rejects device) w) = alarm_summary w) ∧
  (∀ w,
     outcome clear_all_alarm_configs w = Ok tt ∧
     tracked (state_after clear_all_alarm_configs w) = ∅ ∧
     alarm_summary (state_after clear_all_alarm_configs w) = alarm_summary w).
Proof.
  split; [|split].
  - split; [|done]. unfold tracked. simpl. apply dom_empty_L.
  - intros rejects device w Hres.
    unfold outcome at 1, state_after. rewrite add_device_run. simpl.
    unfold outcome, state_after, tracked. rewrite setup_alarm_config_run. simpl.
    by rewrite Hres.
  - intros w. unfold outcome, state_after, tracked.
    rewrite clear_all_alarm_configs_run. simpl. split; [done|]. split; [|done].
    apply dom_empty_L.
Qed.

(** ** The properties on the sample states *)

(** Channels A, B, C connected with severities NoAlarm, Major, Minor: the
    recompute gives Major. *)
Example summary_max_severity :
  compute_alarm Sample.w_connected = Ok AlarmLevel.MAJOR ∧
  alarm_summary Sample.w_connected = AlarmLevel.MAJOR ∧
  alarm_changed Sample.w_connected = [AlarmLevel.INVALID; AlarmLevel.MAJOR].
Proof. by vm_compute. Qed.

(** One disconnected channel overrides the severities. *)
Example summary_disconnect_override :
  compute_alarm Sample.w_B_lost = Ok AlarmLevel.DISCONNECTED.
Proof. by vm_compute. Qed.

(** A recompute with nothing tracked has no value to store. *)
Example recompute_empty_raises :
  update_current_alarm __init__ = (Raise ValueError, __init__).
Proof. by vm_compute. Qed.

Lemma update_current_alarm_summary_witness :
  ((∃ a, addr_connected Sample.w_B_lost !! a = Some false) →
     outcome update_current_alarm Sample.w_B_lost = Ok tt ∧
     alarm_summary (state_after update_current_alarm Sample.w_B_lost)
       = AlarmLevel.DISCONNECTED) ∧
  ((∀ a, a ∈ tracked Sample.w_B_lost →
      addr_connected Sample.w_B_lost !! a = Some true) →
     ∃ m, outcome update_current_alarm Sample.w_B_lost = Ok tt ∧
          alarm_summary (state_after update_current_alarm Sample.w_B_lost) = m ∧
          (∃ a, a ∈ tracked Sample.w_B_lost ∧
                addr_severity Sample.w_B_lost !! a = Some m) ∧
          (∀ a s, addr_severity Sample.w_B_lost !! a = Some s → s ≤ m)).
Proof.
  apply (update_current_alarm_summary Sample.w_B_lost).
  - intros Hempty.
    assert ("A" ∈ tracked Sample.w_B_lost) as Hin.
    { apply elem_of_dom. exists true. by vm_compute. }
    rewrite Hempty in Hin. by apply not_elem_of_empty in Hin.
  - by vm_compute.
Defined.

Lemma update_current_alarm_notifies_witness :
  outcome update_current_alarm Sample.w_B_lost = Ok tt ∧
  alarm_summary (state_after update_current_alarm Sample.w_B_lost)
    = AlarmLevel.DISCONNECTED ∧
  (AlarmLevel.DISCONNECTED ≠ alarm_summary Sample.w_B_lost →
     alarm_changed (state_after update_current_alarm Sample.w_B_lost)
       = alarm_changed Sample.w_B_lost ++ [AlarmLevel.DISCONNECTED]) ∧
  (AlarmLevel.DISCONNECTED = alarm_summary Sample.w_B_lost →
     alarm_changed (state_after update_current_alarm Sample.w_B_lost)
       = alarm_changed Sample.w_B_lost).
Proof.
  apply (update_current_alarm_notifies Sample.w_B_lost AlarmLevel.DISCONNECTED).
  by vm_compute.
Defined.

Lemma KIND_FILTERS_nested_witness :
  get_all_signals_from_device Sample.dev_mixed (KIND_FILTERS NORMAL)
    ⊆ get_all_signals_from_device Sample.dev_mixed (KIND_FILTERS CONFIG).
Proof.
  apply (KIND_FILTERS_nested Sample.dev_mixed NORMAL CONFIG).
  unfold KindLevel_lt. simpl. lia.
Defined.

(** C2 fails: on a widget at the hinted tier with three connected channels,
    setting the hinted tier again is not a no-op; it empties the tables and
    closes the subscriptions, and the stored summary is not the value a
    recompute of the new tables gives. *)
Lemma kindLevel_setter_same_tier_not_noop :
  kindLevel Sample.w_connected = HINTED ∧
  state_after (kindLevel_setter HINTED) Sample.w_connected ≠ Sample.w_connected ∧
  addr_connected Sample.w_connected !! "A" = Some true ∧
  addr_connected (state_after (kindLevel_setter HINTED) Sample.w_connected) !! "A"
    = None ∧
  open_count "A" Sample.w_connected = 1%nat ∧
  open_count "A" (state_after (kindLevel_setter HINTED) Sample.w_connected) = 0%nat ∧
  compute_alarm (state_after (kindLevel_setter HINTED) Sample.w_connected)
    ≠ Ok (alarm_summary (state_after (kindLevel_setter HINTED) Sample.w_connected)).
Proof.
  split; [done|]. split; [|by vm_compute].
  intros Heq. apply (f_equal (fun w => addr_connected w !! "A")) in Heq.
  vm_compute in Heq. discriminate.
Qed.

Lemma kindLevel_setter_teardown_witness :
  subscriptions (state_after (kindLevel_setter HINTED) Sample.w_connected) !! 0%nat
    = None.
Proof.
  destruct (kindLevel_setter_teardown HINTED Sample.w_connected)
    as (_ & Hclosed & _).
  apply (Hclosed "A" {| ch_id := 0; ch_address := "A" |}). by vm_compute.
Defined.

Lemma kindLevel_setter_notifications_witness :
  notifications (kindLevel_setter NORMAL) Sample.w_connected = [].
Proof.
  destruct (kindLevel_setter_notifications NORMAL Sample.w_connected)
    as (_ & _ & Hsame & _).
  apply Hsame. by vm_compute.
Defined.

(** C4 fails: a new widget with no device, and a widget whose only device
    has no signal in the tier, track nothing and have summary Disconnected,
    not NoAlarm. *)
Lemma empty_scope_is_disconnected :
  (devices __init__ = [] ∧ tracked __init__ = ∅ ∧
   alarm_summary __init__ ≠ AlarmLevel.NO_ALARM) ∧
  (resolved_addresses Sample.dev_config_only __init__ = [] ∧
   tracked Sample.w_config_only = ∅ ∧
   alarm_summary Sample.w_config_only ≠ AlarmLevel.NO_ALARM).
Proof.
  split; (split; [done|]; split; [by vm_compute|]); by vm_compute.
Qed.

Lemma empty_scope_summary_witness :
  outcome (add_device Sample.accept_all Sample.dev_config_only) __init__ = Ok tt ∧
  tracked Sample.w_config_only = tracked __init__ ∧
  alarm_summary Sample.w_config_only = alarm_summary __init__.
Proof.
  destruct empty_scope_summary as (_ & Hattach & _).
  apply (Hattach Sample.accept_all Sample.dev_config_only __init__). done.
Defined.

(** C5 fails: with two attached devices sharing address A, two
    subscriptions are open on A. *)
Lemma shared_address_two_subscriptions :
  devices Sample.w_shared = [Sample.dev_three; Sample.dev_shared] ∧
  open_count "A" Sample.w_connected = 1%nat ∧
  open_count "A" Sample.w_shared = 2%nat ∧
  ¬ (open_count "A" Sample.w_shared ≤ 1)%nat.
Proof.
  split; [done|]. split; [by vm_compute|]. split; [by vm_compute|].
  vm_compute. lia.
Qed.

Lemma add_device_opens_every_address_witness :
  subscriptions Sample.w_shared !! 0%nat = Some "A" ∧
  subscriptions Sample.w_shared !! 3%nat = Some "A".
Proof.
  destruct (add_device_opens_every_address Sample.accept_all Sample.dev_shared
              Sample.w_connected) as (_ & _ & Hnew & Hold); [done|].
  split.
  - unfold Sample.w_shared. rewrite (Hold 0%nat); [by vm_compute|].
    vm_compute. lia.
  - apply (Hnew 0%nat "A"). by vm_compute.
Defined.

Lemma setup_alarm_config_resets_witness :
  addr_connected Sample.w_connected !! "A" = Some true ∧
  addr_connected
    (state_after (setup_alarm_config Sample.accept_all Sample.dev_shared)
                 Sample.w_connected) !! "A" = Some false ∧
  addr_severity
    (state_after (setup_alarm_config Sample.accept_all Sample.dev_shared)
                 Sample.w_connected) !! "A" = Some AlarmLevel.INVALID.
Proof.
  destruct (setup_alarm_config_resets Sample.accept_all Sample.dev_shared
              Sample.w_connected) as [_ Hreset].
  - done.
  - apply (bool_decide_unpack _). by vm_compute.
  - destruct (Hreset "A") as (Hconn & Hsev & _).
    + apply list_elem_of_In. vm_compute. by left.
    + split; [by vm_compute|]. split; [exact Hconn|exact Hsev].
Defined.

(** ** Invariants of the reachable states *)

(** The channel table only holds channel objects that were created: true of
    a new widget and kept by every method. *)
Lemma channels_exist_init : channels_exist __init__.
Proof. unfold channels_exist. simpl. apply map_Forall_empty. Qed.

Lemma channels_exist_setup_alarm_config (rejects : string → bool)
    (device : Device) (w : TyphosAlarmBase) :
  channels_exist w →
  channels_exist (state_after (setup_alarm_config rejects device) w).
Proof.
  intros Hwf a ch. unfold state_after. rewrite setup_alarm_config_run. simpl.
  intros Hlk.
  destruct (decide (a ∈ ch_address <$>
      processed rejects (new_channels (created w) (resolved_addresses device w))))
    as [Hin|Hnot].
  - destruct (lookup_foldl_insert_in ch_address (fun c => c) _ (addr_channels w) a Hin)
      as (c & Hc & _ & Hlk').
    rewrite Hlk' in Hlk. injection Hlk as <-.
    apply processed_sub, new_channels_elem in Hc as (i & Hi & Hid).
    apply lookup_lt_Some in Hi. lia.
  - rewrite (lookup_foldl_insert_notin ch_address (fun c => c)) in Hlk by done.
    specialize (Hwf a ch Hlk). simpl in Hwf. lia.
Qed.

Lemma channels_exist_add_device (rejects : string → bool)
    (device : Device) (w : TyphosAlarmBase) :
  channels_exist w → channels_exist (state_after (add_device rejects device) w).
Proof.
  intros Hwf. unfold state_after. rewrite add_device_run. simpl.
  apply (channels_exist_setup_alarm_config rejects device w Hwf).
Qed.

Lemma channels_exist_kindLevel_setter (kind_level : KindLevel) (w : TyphosAlarmBase) :
  channels_exist (state_after (kindLevel_setter kind_level) w).
Proof.
  unfold channels_exist, state_after. rewrite kindLevel_setter_run. simpl.
  apply map_Forall_empty.
Qed.

Lemma channels_exist_update_current_alarm (w : TyphosAlarmBase) :
  channels_exist w → channels_exist (state_after update_current_alarm w).
Proof.
  intros Hwf. unfold state_after. destruct (compute_alarm w) as [v|e] eqn:Hc.
  - rewrite (update_current_alarm_ok w v Hc). simpl. by destruct (bool_decide _).
  - by rewrite (update_current_alarm_raise w e Hc).
Qed.

Lemma channels_exist_update_connection (connected : bool) (addr : string)
    (w : TyphosAlarmBase) :
  channels_exist w → channels_exist (state_after (update_connection connected addr) w).
Proof.
  intros Hwf. unfold update_connection, state_after, bind, modify.
  by apply channels_exist_update_current_alarm.
Qed.

Lemma channels_exist_update_severity (severity : Z) (addr : string)
    (w : TyphosAlarmBase) :
  channels_exist w → channels_exist (state_after (update_severity severity addr) w).
Proof.
  intros Hwf. unfold update_severity, state_after, bind, modify.
  by apply channels_exist_update_current_alarm.
Qed.

(** [setup_alarm_config] gives the connection, severity and channel tables
    the same new addresses, so it keeps their key sets equal. *)
Lemma setup_alarm_config_same_keys (rejects : string → bool) (device : Device)
    (w : TyphosAlarmBase) :
  dom (addr_severity w) = tracked w →
  dom (addr_channels w) = tracked w →
  dom (addr_severity (state_after (setup_alarm_config rejects device) w))
    = tracked (state_after (setup_alarm_config rejects device) w) ∧
  dom (addr_channels (state_after (setup_alarm_config rejects device) w))
    = tracked (state_after (setup_alarm_config rejects device) w).
Proof.
  unfold tracked, state_after. intros Hsev Hch.
  rewrite setup_alarm_config_run. simpl.
  rewrite !dom_foldl_insert, Hsev, Hch. done.
Qed.

(** ** The indicator style sheet *)

Lemma append_inv_head (s t1 t2 : string) : s +:+ t1 = s +:+ t2 → t1 = t2.
Proof. induction s as [|c s IH]; simpl; [done|]. intros [= Heq]. by apply IH. Qed.

Lemma indicator_stylesheet_cases (shape : string) (alarm : Z) :
  (alarm = 0 ∧ indicator_stylesheet shape alarm
                 = Ok (stylesheet_base shape +:+ "(0,255,0,255);}")) ∨
  (alarm = 1 ∧ indicator_stylesheet shape alarm
                 = Ok (stylesheet_base shape +:+ "(255,255,0,255);}")) ∨
  (alarm = 2 ∧ indicator_stylesheet shape alarm
                 = Ok (stylesheet_base shape +:+ "(255,0,0,255);}")) ∨
  (alarm = 3 ∧ indicator_stylesheet shape alarm
                 = Ok (stylesheet_base shape +:+ "(255,0,255,255);}")) ∨
  (alarm = 4 ∧ indicator_stylesheet shape alarm
                 = Ok (stylesheet_base shape +:+ "(255,255,255,255);}")) ∨
  (¬ (0 ≤ alarm ≤ 4) ∧ indicator_stylesheet shape alarm = Raise ValueError).
Proof.
  unfold indicator_stylesheet, AlarmLevel.DISCONNECTED, AlarmLevel.NO_ALARM,
    AlarmLevel.MINOR, AlarmLevel.MAJOR, AlarmLevel.INVALID.
  repeat case_bool_decide; subst; try lia; auto 10.
  do 5 right. split; [lia|done].
Qed.

(** X1. [indicator_stylesheet] gives a style sheet for the five alarm levels
    0 to 4 and raises ValueError for every other integer. *)
Theorem indicator_stylesheet_defined (shape : string) (alarm : Z) :
  (0 ≤ alarm ≤ 4 ↔ ∃ css, indicator_stylesheet shape alarm = Ok css) ∧
  (¬ (0 ≤ alarm ≤ 4) ↔ indicator_stylesheet shape alarm = Raise ValueError).
Proof.
  destruct (indicator_stylesheet_cases shape alarm)
    as [[-> H]|[[-> H]|[[-> H]|[[-> H]|[[-> H]|[Hout H]]]]]]; rewrite H;
    (split; split; intros Hx; try lia; try done; eauto).
  by destruct Hx.
Qed.

(** X2. For one shape, two alarm levels with the same style sheet are the
    same level: the five colours are told apart. *)
Theorem indicator_stylesheet_injective (shape css : string) (a1 a2 : Z) :
  indicator_stylesheet shape a1 = Ok css →
  indicator_stylesheet shape a2 = Ok css →
  a1 = a2.
Proof.
  intros H1 H2.
  destruct (indicator_stylesheet_cases shape a1)
    as [[-> E1]|[[-> E1]|[[-> E1]|[[-> E1]|[[-> E1]|[_ E1]]]]]];
  destruct (indicator_stylesheet_cases shape a2)
    as [[-> E2]|[[-> E2]|[[-> E2]|[[-> E2]|[[-> E2]|[_ E2]]]]]];
  try done; rewrite E1 in H1; rewrite E2 in H2; try done;
  injection H1 as <-; injection H2 as H2; apply append_inv_head in H2; done.
Qed.

(** X3. When every tracked severity is one of the levels 0 to 3, the value
    a recompute yields is one of the levels 0 to 4, so the slot
    [set_alarm_color] has a style sheet for it. *)
Theorem computed_alarm_has_stylesheet (shape : string) (w : TyphosAlarmBase) (v : Z) :
  (∀ a s, addr_severity w !! a = Some s → 0 ≤ s ≤ 3) →
  compute_alarm w = Ok v →
  0 ≤ v ≤ 4 ∧ ∃ css, set_alarm_color shape v = Ok css.
Proof.
  intros Hrange Hc.
  assert (0 ≤ v ≤ 4) as Hv.
  { unfold compute_alarm in Hc. destruct (negb _).
    - injection Hc as <-. unfold AlarmLevel.DISCONNECTED. lia.
    - apply py_max_spec in Hc as [[a Ha]%elem_of_values _].
      specialize (Hrange a v Ha). lia. }
  split; [done|]. unfold set_alarm_color.
  destruct (indicator_stylesheet_cases shape v)
    as [[-> H]|[[-> H]|[[-> H]|[[-> H]|[[-> H]|[Hout H]]]]]]; eauto.
  contradiction.
Qed.

(** ** The channel slots *)

Lemma update_connection_run (connected : bool) (addr : string) (w : TyphosAlarmBase) :
  update_connection connected addr w
    = update_current_alarm
        (set_addr_connected (<[addr := connected]> (addr_connected w)) w).
Proof. done. Qed.

Lemma update_severity_run (severity : Z) (addr : string) (w : TyphosAlarmBase) :
  update_severity severity addr w
    = update_current_alarm
        (set_addr_severity (<[addr := severity]> (addr_severity w)) w).
Proof. done. Qed.

(** X4. A report that a channel is not connected never raises and always
    leaves the stored summary at Disconnected, whatever the tables held; the
    value is sent on alarm_changed only if the summary was not Disconnected
    already. *)
Theorem update_connection_lost (addr : string) (w : TyphosAlarmBase) :
  outcome (update_connection false addr) w = Ok tt ∧
  addr_connected (state_after (update_connection false addr) w) !! addr = Some false ∧
  alarm_summary (state_after (update_connection false addr) w)
    = AlarmLevel.DISCONNECTED ∧
  notifications (update_connection false addr) w
    = if bool_decide (alarm_summary w = AlarmLevel.DISCONNECTED)
      then [] else [AlarmLevel.DISCONNECTED].
Proof.
  unfold notifications, outcome, state_after. rewrite update_connection_run.
  rewrite (update_current_alarm_ok _ AlarmLevel.DISCONNECTED).
  2: { apply (compute_alarm_disconnected _ addr). simpl. apply lookup_insert_eq. }
  simpl. split; [done|].
  destruct (decide (alarm_summary w = AlarmLevel.DISCONNECTED)) as [Heq|Hne].
  - rewrite bool_decide_false by (intros Hn; by apply Hn).
    rewrite (bool_decide_true _ Heq). simpl.
    split; [apply lookup_insert_eq|]. split; [done|]. by rewrite drop_all.
  - rewrite bool_decide_true by (intros Hn; by apply Hne).
    rewrite (bool_decide_false _ Hne). simpl.
    split; [apply lookup_insert_eq|]. split; [done|].
    by rewrite drop_app_length.
Qed.

(** X5. A severity report never raises: the severity is recorded, and the
    stored summary becomes Disconnected or a value at least the reported
    severity. *)
Theorem update_severity_returns (severity : Z) (addr : string) (w : TyphosAlarmBase) :
  outcome (update_severity severity addr) w = Ok tt ∧
  addr_severity (state_after (update_severity severity addr) w) !! addr
    = Some severity ∧
  (alarm_summary (state_after (update_severity severity addr) w)
     = AlarmLevel.DISCONNECTED ∨
   severity ≤ alarm_summary (state_after (update_severity severity addr) w)).
Proof.
  unfold outcome, state_after. rewrite update_severity_run.
  set (w1 := set_addr_severity (<[addr := severity]> (addr_severity w)) w).
  assert (addr_severity w1 !! addr = Some severity) as Hlk
    by (simpl; apply lookup_insert_eq).
  assert (∃ v, compute_alarm w1 = Ok v ∧
               (v = AlarmLevel.DISCONNECTED ∨ severity ≤ v)) as (v & Hc & Hv).
  { unfold compute_alarm. destruct (negb _); [eauto|].
    destruct (py_max_nonempty (values (addr_severity w1))) as [m Hm].
    { intros Hnil. apply values_nil_inv in Hnil. by rewrite Hnil in Hlk. }
    exists m. split; [done|]. right.
    apply py_max_spec in Hm as [_ Hub]. apply Hub, elem_of_values. eauto. }
  rewrite (update_current_alarm_ok w1 v Hc).
  destruct (bool_decide (v ≠ alarm_summary w1)); simpl;
    (split; [done|]; split; [apply lookup_insert_eq|done]).
Qed.

(** X6. After the teardown an address has no severity entry any more, so a
    report that a channel is connected arriving then raises ValueError: the
    connection entry is written, the stored summary is not updated and
    nothing is sent on alarm_changed. *)
Theorem update_connection_after_teardown (addr : string) (w : TyphosAlarmBase) :
  outcome (update_connection true addr) (state_after clear_all_alarm_configs w)
    = Raise ValueError ∧
  tracked (state_after (update_connection true addr)
             (state_after clear_all_alarm_configs w)) = {[ addr ]} ∧
  alarm_summary (state_after (update_connection true addr)
                   (state_after clear_all_alarm_configs w)) = alarm_summary w ∧
  alarm_changed (state_after (update_connection true addr)
                   (state_after clear_all_alarm_configs w)) = alarm_changed w.
Proof.
  unfold outcome, state_after, tracked.
  rewrite clear_all_alarm_configs_run, update_connection_run. simpl.
  rewrite (update_current_alarm_raise _ ValueError).
  - simpl. split; [done|]. split; [|done].
    by rewrite insert_empty, dom_singleton_L.
  - unfold compute_alarm. simpl. rewrite insert_empty.
    unfold values. rewrite map_to_list_singleton. simpl.
    by rewrite map_to_list_empty.
Qed.

(** X7. A severity report arriving after the teardown returns normally and
    makes the reported severity the stored summary, since it is then the
    only entry of the tables. *)
Theorem update_severity_after_teardown (severity : Z) (addr : string)
    (w : TyphosAlarmBase) :
  outcome (update_severity severity addr) (state_after clear_all_alarm_configs w)
    = Ok tt ∧
  alarm_summary (state_after (update_severity severity addr)
                   (state_after clear_all_alarm_configs w)) = severity ∧
  tracked (state_after (update_severity severity addr)
             (state_after clear_all_alarm_configs w)) = ∅.
Proof.
  unfold outcome, state_after, tracked.
  rewrite clear_all_alarm_configs_run, update_severity_run. simpl.
  rewrite (update_current_alarm_ok _ severity).
  - simpl. split; [done|]. split; [done|].
    destruct (bool_decide _); simpl; apply dom_empty_L.
  - unfold compute_alarm. simpl. rewrite insert_empty.
    unfold values. rewrite map_to_list_singleton, map_to_list_empty. done.
Qed.

(** ** The notifications over a sequence of calls *)

Lemma adjacent_distinct_snoc (xs : list Z) (x v : Z) :
  adjacent_distinct xs → last xs = Some x → x ≠ v →
  adjacent_distinct (xs ++ [v]).
Proof.
  induction xs as [|y ys IH]; [done|].
  intros [Hhead Htail] Hlast Hne. destruct ys as [|z zs].
  - simpl in Hlast. injection Hlast as ->. simpl. done.
  - split; [done|]. apply IH; done.
Qed.

Lemma history_sound_same (w w' : TyphosAlarmBase) :
  alarm_summary w' = alarm_summary w → alarm_changed w' = alarm_changed w →
  history_sound w → history_sound w'.
Proof. unfold history_sound, summary_history. by intros -> ->. Qed.

Lemma history_sound_update_current_alarm (w : TyphosAlarmBase) :
  history_sound w → history_sound (state_after update_current_alarm w).
Proof.
  intros [Hlast Hadj]. unfold state_after.
  destruct (compute_alarm w) as [v|e] eqn:Hc.
  - rewrite (update_current_alarm_ok w v Hc). unfold history_sound, summary_history.
    case_bool_decide as Hne; simpl.
    + split.
      * change (last ((AlarmLevel.DISCONNECTED :: alarm_changed w) ++ [v]) = Some v).
        apply last_snoc.
      * change (adjacent_distinct
                  ((AlarmLevel.DISCONNECTED :: alarm_changed w) ++ [v])).
        apply (adjacent_distinct_snoc _ (alarm_summary w)); [done|done|].
        intros Heq. by apply Hne.
    + split; [|done]. unfold summary_history in Hlast.
      rewrite Hlast. f_equal. destruct (decide (v = alarm_summary w)) as [->|Hd]; [done|].
      by contradict Hne.
  - by rewrite (update_current_alarm_raise w e Hc).
Qed.

Lemma history_sound_run_call (rejects : string → bool) (c : Call)
    (w : TyphosAlarmBase) :
  history_sound w → history_sound (state_after (run_call rejects c) w).
Proof.
  intros Hw. destruct c as [device|device| | |kind_level|connected addr|severity addr| ];
    simpl.
  - unfold state_after. rewrite add_device_run. simpl.
    destruct (setup_alarm_config_silent rejects device w) as (Hs & Hc & _).
    by apply (history_sound_same w).
  - destruct (setup_alarm_config_silent rejects device w) as (Hs & Hc & _).
    by apply (history_sound_same w).
  - unfold state_after. rewrite clear_all_alarm_configs_run.
    by apply (history_sound_same w).
  - unfold state_after, update_alarm_config, bind, get.
    rewrite clear_all_alarm_configs_run, for_each_setup_alarms.
    by apply (history_sound_same w).
  - unfold state_after. rewrite kindLevel_setter_run.
    by apply (history_sound_same w).
  - unfold state_after at 1. rewrite update_connection_run.
    apply history_sound_update_current_alarm. by apply (history_sound_same w).
  - unfold state_after at 1. rewrite update_severity_run.
    apply history_sound_update_current_alarm. by apply (history_sound_same w).
  - by apply history_sound_update_current_alarm.
Qed.

(** X8. Whatever calls are made on a new widget, in whatever order, the
    stored summary is the last value sent on alarm_changed (the initial
    Disconnected when none was sent) and no value is sent twice in a row; so
    the first value sent is never Disconnected. *)
Theorem notifications_follow_summary (rejects : string → bool) (cs : list Call) :
  last (summary_history (run_calls rejects cs __init__))
    = Some (alarm_summary (run_calls rejects cs __init__)) ∧
  adjacent_distinct (summary_history (run_calls rejects cs __init__)) ∧
  head (alarm_changed (run_calls rejects cs __init__)) ≠ Some AlarmLevel.DISCONNECTED.
Proof.
  assert (history_sound (run_calls rejects cs __init__)) as [Hlast Hadj].
  { unfold run_calls. induction cs as [|c cs IH] using rev_ind.
    - by split.
    - rewrite foldl_app. simpl. by apply history_sound_run_call. }
  split; [done|]. split; [done|].
  unfold summary_history in Hadj.
  destruct (alarm_changed (run_calls rejects cs __init__)) as [|v vs]; [done|].
  simpl. destruct Hadj as [Hne _]. intros [= ->]. by apply Hne.
Qed.

(** ** Teardown, tier setter and attach: what else they do *)

(** X9. The teardown closes the channels of the channel table and no
    other: after it no channel of the table has a subscription, and the
    subscription of any other channel object is left as it was, so a channel
    that an attach replaced in the table stays open. *)
Theorem clear_all_alarm_configs_closes_table_only (w : TyphosAlarmBase) (c : nat) :
  (c ∈ ch_id <$> values (addr_channels w) →
     subscriptions (state_after clear_all_alarm_configs w) !! c = None) ∧
  (c ∉ ch_id <$> values (addr_channels w) →
     subscriptions (state_after clear_all_alarm_configs w) !! c = subscriptions w !! c).
Proof.
  unfold state_after. rewrite clear_all_alarm_configs_run. simpl. split.
  - intros [ch [-> Hch]]%list_elem_of_fmap. by apply close_all_lookup_closed.
  - intros Hc. by apply close_all_lookup_other.
Qed.

(** X10. The tier setter returns normally only on a widget without
    devices: once a device has been attached, whether or not the attach
    raised, setting any tier raises AttributeError. *)
Theorem kindLevel_setter_raises_with_devices (rejects : string → bool)
    (kind_level : KindLevel) (device : Device) (w : TyphosAlarmBase) :
  (devices w = [] → outcome (kindLevel_setter kind_level) w = Ok tt) ∧
  (devices w ≠ [] → outcome (kindLevel_setter kind_level) w = Raise AttributeError) ∧
  outcome (kindLevel_setter kind_level) (state_after (add_device rejects device) w)
    = Raise AttributeError.
Proof.
  unfold outcome. rewrite !kindLevel_setter_run. simpl.
  split; [by intros ->|]. split; [by destruct (devices w)|].
  unfold state_after. rewrite add_device_run. simpl.
  by destruct (devices w).
Qed.

(** X11. An attach records the device and the full list of the channel
    objects built for it before any subscription is opened: both are in
    place also when the attach raises. *)
Theorem add_device_records_device (rejects : string → bool) (device : Device)
    (w : TyphosAlarmBase) :
  devices (state_after (add_device rejects device) w) = devices w ++ [device] ∧
  device_channels (state_after (add_device rejects device) w) !! name device
    = Some (new_channels (created w) (resolved_addresses device w)) ∧
  created (state_after (add_device rejects device) w)
    = (created w + length (resolved_addresses device w))%nat.
Proof.
  unfold state_after. rewrite add_device_run. simpl.
  unfold state_after. rewrite setup_alarm_config_run. simpl.
  split; [done|]. split; [apply lookup_insert_eq|done].
Qed.

Lemma elem_of_channels (w : TyphosAlarmBase) (ch : PyDMChannel) :
  ch ∈ channels w ↔ ∃ n l, device_channels w !! n = Some l ∧ ch ∈ l.
Proof.
  unfold channels. rewrite list_elem_of_In, in_concat. split.
  - intros (l & [n Hn]%list_elem_of_In%elem_of_values & Hch%list_elem_of_In). eauto.
  - intros (n & l & Hn & Hch). exists l. split.
    + apply list_elem_of_In, elem_of_values. eauto.
    + by apply list_elem_of_In.
Qed.

(** X12. After [setup_alarm_config] for a device, [channels] lists the
    channel objects built by this call and those listed before under the
    name of another device; the ones listed before under this device's name
    are dropped from it. After the teardown [channels] is empty. *)
Theorem channels_after_setup (rejects : string → bool) (device : Device)
    (w : TyphosAlarmBase) (ch : PyDMChannel) :
  (ch ∈ channels (state_after (setup_alarm_config rejects device) w) ↔
     ch ∈ new_channels (created w) (resolved_addresses device w) ∨
     ∃ n l, n ≠ name device ∧ device_channels w !! n = Some l ∧ ch ∈ l) ∧
  channels (state_after clear_all_alarm_configs w) = [].
Proof.
  split.
  - rewrite elem_of_channels. unfold state_after.
    rewrite setup_alarm_config_run. simpl. split.
    + intros (n & l & Hn & Hch). destruct (decide (n = name device)) as [->|Hne].
      * rewrite lookup_insert_eq in Hn. injection Hn as <-. by left.
      * rewrite lookup_insert_ne in Hn by done. right. eauto.
    + intros [Hch|(n & l & Hne & Hn & Hch)].
      * exists (name device), (new_channels (created w) (resolved_addresses device w)).
        split; [apply lookup_insert_eq|done].
      * exists n, l. split; [|done]. by rewrite lookup_insert_ne.
  - unfold state_after. rewrite clear_all_alarm_configs_run.
    unfold channels. simpl. by rewrite values_empty.
Qed.

(** ** The widget classes *)

Lemma append_empty_r (s : string) : s +:+ "" = s.
Proof.
  induction s as [|c s IH]; [done|].
  change (String c (s +:+ "") = String c s). by rewrite IH.
Qed.

Lemma append_snoc_cons (s t : string) (c : Ascii.ascii) :
  (s +:+ String c "") +:+ t = s +:+ String c t.
Proof.
  induction s as [|d s IH]; [done|].
  change (String d ((s +:+ String c "") +:+ t) = String d (s +:+ String c t)).
  by rewrite IH.
Qed.

Lemma prefix_append (sep t : string) : String.prefix sep (sep +:+ t) = true.
Proof.
  induction sep as [|c sep IH]; [by destruct t|].
  change (String.prefix (String c sep) (String c (sep +:+ t)) = true).
  cbn [String.prefix]. destruct (Ascii.ascii_dec c c); [done|contradiction].
Qed.

Lemma split_from_skip (sep cur s1 s2 : string) :
  split_from sep (String.length s1) cur (s1 +:+ s2) = split_from sep 0 cur s2.
Proof.
  induction s1 as [|c s1 IH]; [by destruct s2|].
  change (split_from sep (S (String.length s1)) cur (String c (s1 +:+ s2))
            = split_from sep 0 cur s2).
  cbn [split_from]. apply IH.
Qed.

Lemma split_from_no_occurrence (sep cur s : string) :
  occurs sep s = false → split_from sep 0 cur s = [cur +:+ s].
Proof.
  revert cur. induction s as [|c s IH]; intros cur Hocc.
  - simpl. by rewrite append_empty_r.
  - cbn [occurs] in Hocc. apply orb_false_iff in Hocc as [Hpre Hocc].
    cbn [split_from]. rewrite Hpre, IH by done. by rewrite append_snoc_cons.
Qed.

Lemma split_separator_first (sep shape : string) :
  sep ≠ "" → occurs sep shape = false →
  split (sep +:+ shape) sep = [""; shape].
Proof.
  intros Hsep Hocc. destruct sep as [|c sep]; [done|].
  unfold split. change (String c sep +:+ shape) with (String c (sep +:+ shape)).
  cbn [split_from].
  change (String c (sep +:+ shape)) with (String c sep +:+ shape).
  rewrite prefix_append. cbn [String.length]. rewrite Nat.sub_1_r. simpl Nat.pred.
  by rewrite split_from_skip, split_from_no_occurrence.
Qed.

(** X13. For a drawing class named PyDMDrawing followed by a shape name
    that does not itself contain PyDMDrawing, [create_alarm_widget_cls]
    builds the class named TyphosAlarm followed by the shape name, with the
    drawing class name as its shape_cls. *)
Theorem create_alarm_widget_cls_name (shape : string) :
  occurs "PyDMDrawing" shape = false →
  create_alarm_widget_cls ("PyDMDrawing" +:+ shape)
    = Return {| __name__ := "TyphosAlarm" +:+ shape;
                shape_cls := "PyDMDrawing" +:+ shape |}.
Proof.
  intros Hocc. unfold create_alarm_widget_cls.
  by rewrite (split_separator_first "PyDMDrawing" shape) by done.
Qed.

(** X14. For a class whose name does not contain PyDMDrawing,
    [create_alarm_widget_cls] raises IndexError: the split has one piece. *)
Theorem create_alarm_widget_cls_index_error (cls_name : string) :
  occurs "PyDMDrawing" cls_name = false →
  create_alarm_widget_cls cls_name = Throw IndexError.
Proof.
  intros Hocc. unfold create_alarm_widget_cls, split.
  by rewrite split_from_no_occurrence by done.
Qed.

(** X15. [init_shape_classes] returns normally from any module globals and
    binds the five names TyphosAlarmCircle, TyphosAlarmRectangle,
    TyphosAlarmTriangle, TyphosAlarmEllipse and TyphosAlarmPolygon, each to
    the class of its own drawing widget; every other global is left as it
    was. *)
Theorem init_shape_classes_registers (globals : gmap string AlarmWidgetClass) :
  ∃ globals',
    init_shape_classes globals = Return globals' ∧
    (∀ shape, shape ∈ ["Circle"; "Rectangle"; "Triangle"; "Ellipse"; "Polygon"] →
       globals' !! ("TyphosAlarm" +:+ shape)
         = Some {| __name__ := "TyphosAlarm" +:+ shape;
                   shape_cls := "PyDMDrawing" +:+ shape |}) ∧
    (∀ k, k ∉ ["TyphosAlarmCircle"; "TyphosAlarmRectangle"; "TyphosAlarmTriangle";
               "TyphosAlarmEllipse"; "TyphosAlarmPolygon"] →
       globals' !! k = globals !! k).
Proof.
  eexists. split; [reflexivity|]. split.
  - intros shape Hin. repeat (apply elem_of_cons in Hin as [->|Hin]);
      [..|by apply elem_of_nil in Hin]; simpl; by simplify_map_eq.
  - intros k Hk. repeat (apply not_elem_of_cons in Hk as [? Hk]).
    by rewrite !lookup_insert_ne.
Qed.

(** ** The command line *)

Section CliFacts.
Variables Dev Suite Window : Type.
Variable happi_client : bool.
Variable findall : string → list (string * string).
Variable load_class : string → string → bool → option Dev.
Variable load_device : string → option Dev.
Variable clear_fake_device : string + Dev → option py_exn.
Variable new_suite : Suite.
Variable default_tools : list string.
Variable add_tool : string → Suite → Suite.
Variable suite_add_device : Dev → Suite → Suite * bool.
Variable show_subdisplay : Dev → Suite → Suite * bool.
Variable launch_suite : Suite → Window.

Local Abbreviation create_devices_loop :=
  (Cli.create_devices_loop Dev happi_client findall load_class load_device
     clear_fake_device).
Local Abbreviation create_devices :=
  (Cli.create_devices Dev happi_client findall load_class load_device
     clear_fake_device).
Local Abbreviation suite_from_devices :=
  (Cli.suite_from_devices Dev Suite new_suite default_tools add_tool
     suite_add_device show_subdisplay).
Local Abbreviation create_suite :=
  (Cli.create_suite Dev Suite happi_client findall load_class load_device
     clear_fake_device new_suite default_tools add_tool suite_add_device
     show_subdisplay).
Local Abbreviation typhos_core :=
  (Cli.typhos_core Dev Suite Window happi_client findall load_class load_device
     clear_fake_device new_suite default_tools add_tool suite_add_device
     show_subdisplay launch_suite).
Local Abbreviation typhos_cli :=
  (Cli.typhos_cli Dev Suite Window happi_client findall load_class load_device
     clear_fake_device new_suite default_tools add_tool suite_add_device
     show_subdisplay launch_suite).

Lemma create_devices_loop_app (fake_devices : bool) (l1 l2 : list string)
    (loaded_devs : list Dev) :
  create_devices_loop fake_devices (l1 ++ l2) loaded_devs
    = match create_devices_loop fake_devices l1 loaded_devs with
      | Return loaded_devs' => create_devices_loop fake_devices l2 loaded_devs'
      | Throw e => Throw e
      end.
Proof.
  revert loaded_devs. induction l1 as [|device l1 IH]; intros loaded_devs; [done|].
  simpl. destruct (findall device) as [|[klass args] _].
  - destruct (negb happi_client); [apply IH|].
    destruct fake_devices; [done|apply IH].
  - destruct (load_class klass args fake_devices) as [dev|];
      destruct fake_devices; try apply IH;
      by destruct (clear_fake_device _).
Qed.

Lemma create_devices_loop_real (devices_arg : list string) :
  ∃ loaded, ∀ loaded_devs,
    create_devices_loop false devices_arg loaded_devs = Return (loaded_devs ++ loaded).
Proof.
  induction devices_arg as [|device rest [loaded IH]].
  - exists []. intros loaded_devs. simpl. by rewrite app_nil_r.
  - simpl. destruct (findall device) as [|[klass args] _].
    + destruct (negb happi_client); [by exists loaded|].
      destruct (load_device device) as [dev|]; [|by exists loaded].
      exists (dev :: loaded). intros loaded_devs.
      by rewrite IH, <- app_assoc.
    + destruct (load_class klass args false) as [dev|]; [|by exists loaded].
      exists (dev :: loaded). intros loaded_devs.
      by rewrite IH, <- app_assoc.
Qed.

(** X16. Without fake devices [create_devices] never raises, and entries
    are loaded independently of each other: the devices loaded from two
    lists of entries put together are those loaded from the first list
    followed by those loaded from the second. An entry that fails to load
    does not keep later entries from loading. *)
Theorem create_devices_independent (l1 l2 : list string) :
  ∃ loaded1 loaded2,
    create_devices l1 false = Return loaded1 ∧
    create_devices l2 false = Return loaded2 ∧
    create_devices (l1 ++ l2) false = Return (loaded1 ++ loaded2).
Proof.
  destruct (create_devices_loop_real l1) as [loaded1 H1].
  destruct (create_devices_loop_real l2) as [loaded2 H2].
  exists loaded1, loaded2. unfold Cli.create_devices.
  rewrite create_devices_loop_app, !H1, !H2. done.
Qed.

(** X17. Without a happi client, entries that are not class entries are
    skipped: a list of such entries loads nothing and raises nothing, with
    or without fake devices. *)
Theorem create_devices_without_happi (devices_arg : list string) (fake_devices : bool) :
  happi_client = false →
  (∀ device, device ∈ devices_arg → findall device = []) →
  create_devices devices_arg fake_devices = Return [].
Proof.
  intros Hclient Hnone. unfold Cli.create_devices.
  induction devices_arg as [|device rest IH]; [done|].
  simpl. rewrite (Hnone device) by (apply elem_of_cons; by left).
  replace (negb happi_client) with true by (by rewrite Hclient).
  apply IH. intros d Hd. apply Hnone, elem_of_cons. by right.
Qed.

(** X18. With fake devices and a happi client, the first entry that is not
    a class entry makes [create_devices] raise NotImplementedError; the
    devices loaded from the entries before it are lost. *)
Theorem create_devices_fake_happi (pre rest : list string) (device : string)
    (loaded : list Dev) :
  happi_client = true →
  findall device = [] →
  create_devices pre true = Return loaded →
  create_devices (pre ++ device :: rest) true = Throw NotImplementedError.
Proof.
  intros Hclient Hnone Hpre. unfold Cli.create_devices in *.
  rewrite create_devices_loop_app, Hpre. simpl. by rewrite Hnone, Hclient.
Qed.

Lemma create_suite_nil (fake_devices : bool) :
  create_suite [] fake_devices = Throw UnboundLocalError.
Proof. done. Qed.

Lemma create_suite_nonempty (devices : list string) (fake_devices : bool) :
  devices ≠ [] →
  create_suite devices fake_devices
    = match create_devices devices fake_devices with
      | Throw e => Throw e
      | Return [] => Return None
      | Return (dev :: loaded) => Return (Some (suite_from_devices (dev :: loaded)))
      end.
Proof.
  intros Hne. unfold Cli.create_suite. rewrite (bool_decide_true _ Hne).
  destruct (create_devices devices fake_devices) as [[|dev loaded]|e]; [| |done].
  - rewrite (bool_decide_false ([] ≠ [])) by (intros Hn; by apply Hn).
    by rewrite bool_decide_false.
  - by rewrite (bool_decide_true (dev :: loaded ≠ [])).
Qed.

(** X19. [create_suite] with an empty list of devices raises
    UnboundLocalError, whatever the libraries do: [loaded_devs] is read
    without having been assigned. *)
Theorem create_suite_no_devices (fake_devices : bool) :
  create_suite [] fake_devices = Throw UnboundLocalError.
Proof. apply create_suite_nil. Qed.

(** X20. For a non-empty list of entries, [create_suite] raises what
    [create_devices] raises, returns None when no device was loaded, and
    otherwise returns the suite built from the loaded devices. *)
Theorem create_suite_loaded (devices : list string) (fake_devices : bool) :
  devices ≠ [] →
  create_suite devices fake_devices
    = match create_devices devices fake_devices with
      | Throw e => Throw e
      | Return [] => Return None
      | Return (dev :: loaded) => Return (Some (suite_from_devices (dev :: loaded)))
      end.
Proof.
  intros Hne. unfold Cli.create_suite. rewrite (bool_decide_true _ Hne).
  destruct (create_devices devices fake_devices) as [[|dev loaded]|e]; [| |done].
  - rewrite (bool_decide_false ([] ≠ [])) by (intros Hn; by apply Hn).
    by rewrite bool_decide_false.
  - by rewrite (bool_decide_true (dev :: loaded ≠ [])).
Qed.

(** X21. [typhos_cli] returns a window only when neither the version nor a
    benchmark was asked for and at least one device was loaded; the window
    is the one launched on the suite of the loaded devices. *)
Theorem typhos_cli_window (args : Cli.Namespace) (steps : list Cli.CliStep)
    (window : Window) :
  typhos_cli args = (steps, Return (Some window)) →
  Cli.args_version args = false ∧
  Cli.args_benchmark args = None ∧
  ∃ dev loaded,
    create_devices (Cli.args_devices args) (Cli.args_fake_device args)
      = Return (dev :: loaded) ∧
    window = launch_suite (suite_from_devices (dev :: loaded)).
Proof.
  unfold Cli.typhos_cli. destruct (Cli.args_version args); [done|].
  destruct (Cli.args_benchmark args); [done|].
  unfold Cli.typhos_core.
  destruct (decide (Cli.args_devices args = [])) as [Hnil|Hne].
  { rewrite Hnil. by rewrite create_suite_nil. }
  rewrite (create_suite_nonempty _ _ Hne).
  destruct (create_devices _ _) as [[|dev loaded]|e]; [done| |done].
  intros [= _ <-]. split; [done|]. split; [done|]. eauto.
Qed.

(** X22. Run without version, without benchmark and without devices,
    [typhos_cli] raises UnboundLocalError after the setup; when profiling
    was asked for, the profiler has been switched on and is not switched
    off, and no results are saved or printed. *)
Theorem typhos_cli_no_devices (args : Cli.Namespace) :
  Cli.args_version args = false →
  Cli.args_benchmark args = None →
  Cli.args_devices args = [] →
  typhos_cli args
    = ((if Cli.profiling_on args
        then [Cli.SetupProfiler; Cli.ToggleProfiler true] else [])
       ++ [Cli.CliSetup],
       Throw UnboundLocalError).
Proof.
  intros Hv Hb Hd. unfold Cli.typhos_cli, Cli.typhos_core.
  by rewrite Hv, Hb, Hd, create_suite_nil.
Qed.

(** X23. When [typhos_cli] returns, the profiler is switched off if and
    only if it was switched on, and that is exactly when one of the
    profiling options was given. *)
Theorem typhos_cli_profiler_balanced (args : Cli.Namespace)
    (steps : list Cli.CliStep) (value : option Window) :
  typhos_cli args = (steps, Return value) →
  Cli.args_version args = false →
  (Cli.ToggleProfiler true ∈ steps ↔ Cli.profiling_on args = true) ∧
  (Cli.ToggleProfiler false ∈ steps ↔ Cli.profiling_on args = true).
Proof.
  unfold Cli.typhos_cli. intros Hrun Hv. rewrite Hv in Hrun.
  assert (∃ middle,
    steps = (if Cli.profiling_on args
             then [Cli.SetupProfiler; Cli.ToggleProfiler true] else [])
            ++ [Cli.CliSetup] ++ middle
            ++ (if Cli.profiling_on args
                then [Cli.ToggleProfiler false;
                      match Cli.args_profile_output args with
                      | Some file => if Cli.truthy (Some file)
                                     then Cli.SaveResults file else Cli.PrintResults
                      | None => Cli.PrintResults
                      end]
                else []) ∧
    (middle = [] ∨ ∃ tests, middle = [Cli.RunBenchmarks tests])) as (middle & -> & Hmid).
  { destruct (Cli.args_benchmark args) as [tests|].
    - injection Hrun as <- _. exists [Cli.RunBenchmarks tests].
      split; [by rewrite <- !app_assoc|]. eauto.
    - destruct (typhos_core _ _) as [suite|e]; [|done].
      injection Hrun as <- _. exists []. split; [by rewrite <- !app_assoc|]. by left. }
  clear Hrun.
  assert (∀ on, match Cli.args_profile_output args with
                | Some file => if Cli.truthy (Some file)
                               then Cli.SaveResults file else Cli.PrintResults
                | None => Cli.PrintResults
                end ≠ Cli.ToggleProfiler on) as Hlast.
  { intros on. destruct (Cli.args_profile_output args) as [file|]; [|done].
    by destruct (Cli.truthy (Some file)). }
  revert Hlast. generalize (match Cli.args_profile_output args with
                | Some file => if Cli.truthy (Some file)
                               then Cli.SaveResults file else Cli.PrintResults
                | None => Cli.PrintResults
                end). intros final Hlast.
  pose proof (Hlast true) as Hon. pose proof (Hlast false) as Hoff. clear Hlast.
  destruct (Cli.profiling_on args); destruct Hmid as [->|[tests ->]];
    rewrite !elem_of_app, ?elem_of_cons, ?elem_of_nil; intuition congruence.
Qed.
End CliFacts.

(** ** The tables over a sequence of calls *)

Lemma tables_aligned_update_current_alarm (w : TyphosAlarmBase) :
  tables_aligned w → tables_aligned (state_after update_current_alarm w).
Proof.
  intros Hw. unfold state_after. destruct (compute_alarm w) as [v|e] eqn:Hc.
  - rewrite (update_current_alarm_ok w v Hc). by destruct (bool_decide _).
  - by rewrite (update_current_alarm_raise w e Hc).
Qed.

Lemma dom_insert_tracked {V} (m : gmap string V) (addr : string) (v : V) :
  addr ∈ dom m → dom (<[addr := v]> m) = dom m.
Proof.
  intros Hin. rewrite dom_insert_L. apply subseteq_union_1_L.
  by apply singleton_subseteq_l.
Qed.

Lemma tables_aligned_run_call (rejects : string → bool) (c : Call)
    (w : TyphosAlarmBase) :
  tables_aligned w → call_in_scope c w →
  tables_aligned (state_after (run_call rejects c) w).
Proof.
  intros [Hsev Hch] Hscope.
  assert (tables_aligned
            {| _kind_level := _kind_level w; addr_connected := ∅;
               addr_severity := ∅; addr_channels := ∅; device_channels := ∅;
               alarm_summary := alarm_summary w; devices := devices w;
               created := created w;
               subscriptions := close_all (values (addr_channels w)) (subscriptions w);
               alarm_changed := alarm_changed w |}) as Hcleared.
  { unfold tables_aligned, tracked. simpl. by rewrite !dom_empty_L. }
  destruct c as [device|device| | |kind_level|connected addr|severity addr| ];
    simpl in *.
  - unfold state_after. rewrite add_device_run. simpl.
    apply (setup_alarm_config_same_keys rejects device w Hsev Hch).
  - apply (setup_alarm_config_same_keys rejects device w Hsev Hch).
  - unfold state_after. by rewrite clear_all_alarm_configs_run.
  - unfold state_after, update_alarm_config, bind, get.
    by rewrite clear_all_alarm_configs_run, for_each_setup_alarms.
  - unfold state_after. rewrite kindLevel_setter_run.
    unfold tables_aligned, tracked. simpl. by rewrite !dom_empty_L.
  - unfold state_after at 1. rewrite update_connection_run.
    apply tables_aligned_update_current_alarm.
    unfold tables_aligned, tracked in *. simpl.
    by rewrite dom_insert_tracked, Hsev, Hch.
  - unfold state_after at 1. rewrite update_severity_run.
    apply tables_aligned_update_current_alarm.
    unfold tables_aligned, tracked in *. simpl.
    rewrite dom_insert_tracked by (by rewrite Hsev). done.
  - by apply tables_aligned_update_current_alarm.
Qed.

Lemma tables_aligned_run_calls (rejects : string → bool) (cs : list Call)
    (w : TyphosAlarmBase) :
  tables_aligned w → calls_in_scope rejects cs w →
  tables_aligned (run_calls rejects cs w).
Proof.
  revert w. induction cs as [|c cs IH]; intros w Hw Hscope; [done|].
  destruct Hscope as [Hc Hrest]. simpl. apply IH; [|done].
  by apply tables_aligned_run_call.
Qed.

(** X24. On a new widget, as long as the connection and severity reports
    that are delivered concern tracked addresses, the connection, severity
    and channel tables always have the same addresses, and a further report
    for a tracked address returns normally, be it a connection or a
    severity report. *)
Theorem reports_in_scope_return (rejects : string → bool) (cs : list Call)
    (connected : bool) (severity : Z) (addr : string) :
  calls_in_scope rejects cs __init__ →
  addr ∈ tracked (run_calls rejects cs __init__) →
  dom (addr_severity (run_calls rejects cs __init__))
    = tracked (run_calls rejects cs __init__) ∧
  dom (addr_channels (run_calls rejects cs __init__))
    = tracked (run_calls rejects cs __init__) ∧
  outcome (update_connection connected addr) (run_calls rejects cs __init__) = Ok tt ∧
  outcome (update_severity severity addr) (run_calls rejects cs __init__) = Ok tt.
Proof.
  intros Hscope Haddr.
  assert (tables_aligned (run_calls rejects cs __init__)) as [Hsev Hch].
  { apply tables_aligned_run_calls; [|done].
    unfold tables_aligned, tracked. simpl. by rewrite !dom_empty_L. }
  split; [done|]. split; [done|]. split.
  - unfold outcome. rewrite update_connection_run.
    set (w := run_calls rejects cs __init__) in *.
    set (w1 := set_addr_connected (<[addr := connected]> (addr_connected w)) w).
    assert (∃ v, compute_alarm w1 = Ok v) as [v Hc].
    { unfold compute_alarm. destruct (negb _); [eauto|].
      apply py_max_nonempty. intros Hnil%values_nil_inv.
      change (addr_severity w1) with (addr_severity w) in Hnil.
      rewrite <- Hsev, Hnil, dom_empty_L in Haddr.
      by apply not_elem_of_empty in Haddr. }
    by rewrite (update_current_alarm_ok w1 v Hc).
  - unfold outcome. rewrite update_severity_run.
    set (w := run_calls rejects cs __init__) in *.
    set (w1 := set_addr_severity (<[addr := severity]> (addr_severity w)) w).
    assert (∃ v, compute_alarm w1 = Ok v) as [v Hc].
    { unfold compute_alarm. destruct (negb _); [eauto|].
      apply py_max_nonempty. intros Hnil%values_nil_inv.
      assert (addr_severity w1 !! addr = Some severity) as Hlk
        by (simpl; apply lookup_insert_eq).
      by rewrite Hnil in Hlk. }
    by rewrite (update_current_alarm_ok w1 v Hc).
Qed.

(** ** A channel whose open fails *)






(** ** The further properties on sample inputs *)

Lemma indicator_stylesheet_injective_witness :
  indicator_stylesheet "PyDMDrawingCircle" 2
    = Ok (stylesheet_base "PyDMDrawingCircle" +:+ "(255,0,0,255);}") ∧
  2 = AlarmLevel.MAJOR.
Proof.
  split; [by vm_compute|].
  apply (indicator_stylesheet_injective "PyDMDrawingCircle"
           (stylesheet_base "PyDMDrawingCircle" +:+ "(255,0,0,255);}")
           2 AlarmLevel.MAJOR); by vm_compute.
Defined.

Lemma computed_alarm_has_stylesheet_witness :
  ∃ css, set_alarm_color "PyDMDrawingCircle" AlarmLevel.MAJOR = Ok css.
Proof.
  apply (computed_alarm_has_stylesheet "PyDMDrawingCircle" Sample.w_connected
           AlarmLevel.MAJOR).
  - apply (bool_decide_unpack _). by vm_compute.
  - by vm_compute.
Defined.

Lemma clear_all_alarm_configs_closes_table_only_witness :
  subscriptions Sample.w_shared !! 0%nat = Some "A" ∧
  subscriptions Sample.w_shared !! 3%nat = Some "A" ∧
  subscriptions (state_after clear_all_alarm_configs Sample.w_shared) !! 0%nat
    = Some "A" ∧
  subscriptions (state_after clear_all_alarm_configs Sample.w_shared) !! 3%nat
    = None.
Proof.
  split; [by vm_compute|]. split; [by vm_compute|]. split.
  - destruct (clear_all_alarm_configs_closes_table_only Sample.w_shared 0)
      as [_ Hkept].
    rewrite Hkept; [by vm_compute|].
    intros Hin%list_elem_of_In. vm_compute in Hin. intuition discriminate.
  - destruct (clear_all_alarm_configs_closes_table_only Sample.w_shared 3)
      as [Hclosed _].
    apply Hclosed, list_elem_of_In. vm_compute. auto.
Defined.

Lemma kindLevel_setter_raises_with_devices_witness :
  outcome (kindLevel_setter NORMAL) __init__ = Ok tt ∧
  outcome (kindLevel_setter NORMAL) Sample.w_three = Raise AttributeError.
Proof.
  destruct (kindLevel_setter_raises_with_devices Sample.accept_all NORMAL
              Sample.dev_three __init__) as (Hempty & _ & Hattached).
  split; [by apply Hempty|exact Hattached].
Defined.

Lemma create_alarm_widget_cls_name_witness :
  create_alarm_widget_cls "PyDMDrawingCircle"
    = Return {| __name__ := "TyphosAlarmCircle"; shape_cls := "PyDMDrawingCircle" |}.
Proof. apply (create_alarm_widget_cls_name "Circle"). by vm_compute. Defined.

Lemma create_alarm_widget_cls_index_error_witness :
  create_alarm_widget_cls "QWidget" = Throw IndexError.
Proof. apply (create_alarm_widget_cls_index_error "QWidget"). by vm_compute. Defined.

Lemma create_devices_without_happi_witness :
  Cli.sample_create_devices false ["at_happi"; "unknown"] true = Return [].
Proof.
  unfold Cli.sample_create_devices. apply create_devices_without_happi; [done|].
  intros device Hin. repeat (apply elem_of_cons in Hin as [->|Hin]); [done|done|].
  by apply elem_of_nil in Hin.
Defined.

Lemma create_devices_fake_happi_witness :
  Cli.sample_create_devices true ["ophyd.EpicsMotor[]"; "at_happi"; "unknown"] true
    = Throw NotImplementedError.
Proof.
  unfold Cli.sample_create_devices.
  by apply (create_devices_fake_happi string true Cli.sample_findall
              Cli.sample_load_class Cli.sample_load_device
              Cli.sample_clear_fake_device ["ophyd.EpicsMotor[]"] ["unknown"]
              "at_happi" ["motor"]).
Defined.

Lemma create_suite_loaded_witness :
  Cli.create_suite string (list string) true Cli.sample_findall
    Cli.sample_load_class Cli.sample_load_device Cli.sample_clear_fake_device
    [] [] (fun _ suite => suite) Cli.sample_suite_add_device
    Cli.sample_show_subdisplay ["Broken[]"; "unknown"] false
  = Return None.
Proof. by rewrite create_suite_loaded. Defined.

Lemma typhos_cli_window_witness :
  Cli.sample_create_devices true ["at_happi"] false = Return ["happi device"].
Proof.
  destruct (typhos_cli_window string (list string) (list string) true
              Cli.sample_findall Cli.sample_load_class Cli.sample_load_device
              Cli.sample_clear_fake_device [] [] (fun _ suite => suite)
              Cli.sample_suite_add_device Cli.sample_show_subdisplay
              (fun suite => suite)
              {| Cli.args_devices := ["at_happi"]; Cli.args_fake_device := false;
                 Cli.args_version := false; Cli.args_profile_modules := None;
                 Cli.args_profile_output := None; Cli.args_benchmark := None |}
              [Cli.CliSetup] ["happi device"])
    as (_ & _ & dev & loaded & Hload & Hwin); [by vm_compute|].
  simpl in Hload. unfold Cli.sample_create_devices. rewrite Hload.
  vm_compute in Hload. by injection Hload as <- <-.
Defined.

Lemma typhos_cli_no_devices_witness :
  Cli.sample_typhos_cli
    {| Cli.args_devices := []; Cli.args_fake_device := false;
       Cli.args_version := false; Cli.args_profile_modules := Some [];
       Cli.args_profile_output := None; Cli.args_benchmark := None |}
  = ([Cli.SetupProfiler; Cli.ToggleProfiler true; Cli.CliSetup],
     Throw UnboundLocalError).
Proof. unfold Cli.sample_typhos_cli. by rewrite typhos_cli_no_devices. Defined.

Lemma typhos_cli_profiler_balanced_witness :
  Cli.ToggleProfiler false
    ∈ [Cli.SetupProfiler; Cli.ToggleProfiler true; Cli.CliSetup;
       Cli.ToggleProfiler false; Cli.SaveResults "out"].
Proof.
  destruct (typhos_cli_profiler_balanced string (list string) (list string) true
              Cli.sample_findall Cli.sample_load_class Cli.sample_load_device
              Cli.sample_clear_fake_device [] [] (fun _ suite => suite)
              Cli.sample_suite_add_device Cli.sample_show_subdisplay
              (fun suite => suite)
              {| Cli.args_devices := ["at_happi"]; Cli.args_fake_device := false;
                 Cli.args_version := false; Cli.args_profile_modules := None;
                 Cli.args_profile_output := Some "out"; Cli.args_benchmark := None |}
              [Cli.SetupProfiler; Cli.ToggleProfiler true; Cli.CliSetup;
               Cli.ToggleProfiler false; Cli.SaveResults "out"]
              (Some ["happi device"])) as [_ [_ Hoff]]; [by vm_compute|done|].
  apply Hoff. by vm_compute.
Defined.

Lemma reports_in_scope_return_witness :
  outcome (update_connection true "B")
    (run_calls Sample.accept_all
       [CallAddDevice Sample.dev_three; CallUpdateConnection true "A"] __init__)
  = Ok tt.
Proof.
  destruct (reports_in_scope_return Sample.accept_all
              [CallAddDevice Sample.dev_three; CallUpdateConnection true "A"]
              true 0 "B") as (_ & _ & Hconn & _); [| |exact Hconn].
  - change (True ∧
            "A" ∈ tracked (state_after (add_device Sample.accept_all Sample.dev_three)
                             __init__) ∧ True).
    split; [exact I|]. split; [|exact I].
    unfold tracked. apply elem_of_dom. exists false. by vm_compute.
  - unfold tracked. apply elem_of_dom. exists false. by vm_compute.
Defined.

